(** * ios/update_info_plist.py: removal of UIApplicationSceneManifest

    A shallow embedding of the script [ios/update_info_plist.py] and the
    properties of its read-modify-write cycle.

    The script uses three things that are not part of the repository:
    the file system ([os.path.exists], [open]), the console ([print]) and
    CPython's [plistlib] ([load], [dump]).  The file system and the console
    are modelled by an explicit [world] threaded through a small
    state-and-exception monad.  [plistlib] is an interface ([Plistlib]):
    every theorem about [update_info_plist] is proved for an arbitrary
    implementation of it, and [RefPlist] is an executable implementation
    on which concrete files are run.

    Two things are taken for granted: [print] succeeds, and what is
    raised is an instance of [Exception], so that the [except] clause of
    line 37 catches it. *)

From Stdlib Require Import String Ascii ZArith List Lia DecimalString Sorted.
From Stdlib.Strings Require Import Byte.
From stdpp Require Import gmap strings list.

Set Warnings "-register-all".
Open Scope string_scope.

(** ** Python values *)

(** The objects [plistlib.load] returns, restricted to [None], strings,
    integers, booleans, lists and dictionaries with string keys.  A [dict]
    keeps its items in insertion order; a [str] is held as its UTF-8
    encoding. *)
Inductive value : Type :=
| VNone
| VStr (s : string)
| VInt (n : Z)
| VBool (b : bool)
| VList (items : list value)
| VDict (items : list (string * value)).

(** Exceptions, all of them instances of Python's [Exception]. *)
Inductive exn_class : Type :=
| FileNotFoundError | IsADirectoryError | PermissionError | OSError
| InvalidFileException | ExpatError
| TypeError | KeyError | IndexError | OverflowError | ValueError.

Record exn : Type := Exn { exn_type : exn_class; exn_str : string }.

(** [k in d] *)
Definition dict_contains (k : string) (d : list (string * value)) : bool :=
  existsb (fun kv => String.eqb (fst kv) k) d.

(** [d[k] = v]: the value of an existing key is replaced in place, a new
    key goes to the end. *)
Definition dict_setitem (k : string) (v : value) (d : list (string * value))
  : list (string * value) :=
  if dict_contains k d then
    List.map (fun kv => if String.eqb (fst kv) k then (k, v) else kv) d
  else d ++ [(k, v)].

(** [d[k]], [None] standing for [KeyError] *)
Fixpoint dict_get (k : string) (d : list (string * value)) : option value :=
  match d with
  | [] => None
  | (k', v) :: d' => if String.eqb k' k then Some v else dict_get k d'
  end.

(** The dictionary after [del d[k]]: the item of key [k] is gone, the
    other items keep their order. *)
Definition dict_delitem (k : string) (d : list (string * value))
  : list (string * value) :=
  List.filter (fun kv => negb (String.eqb (fst kv) k)) d.

Definition dict_keys (d : list (string * value)) : list string :=
  List.map fst d.

(** [sub in s] on two strings. *)
Fixpoint str_contains (sub s : string) : bool :=
  String.prefix sub s ||
  match s with
  | EmptyString => false
  | String _ s' => str_contains sub s'
  end.

Definition is_str (k : string) (v : value) : bool :=
  match v with
  | VStr s => String.eqb s k
  | _ => false
  end.

(** [k in obj] for a string [k]: key membership on a dict, element
    membership on a list, substring test on a str, [TypeError] on the
    objects that are no containers. *)
Definition py_contains (k : string) (obj : value) : exn + bool :=
  match obj with
  | VDict d => inr (dict_contains k d)
  | VList l => inr (existsb (is_str k) l)
  | VStr s => inr (str_contains k s)
  | VNone =>
      inl (Exn TypeError "argument of type 'NoneType' is not iterable")
  | VInt _ => inl (Exn TypeError "argument of type 'int' is not iterable")
  | VBool _ => inl (Exn TypeError "argument of type 'bool' is not iterable")
  end.

(** [del obj[k]] for a string [k]; the object after the deletion. *)
Definition py_delitem (obj : value) (k : string) : exn + value :=
  match obj with
  | VDict d =>
      if dict_contains k d then inr (VDict (dict_delitem k d))
      else inl (Exn KeyError ("'" ++ k ++ "'"))
  | VList _ =>
      inl (Exn TypeError "list indices must be integers or slices, not str")
  | VStr _ =>
      inl (Exn TypeError "'str' object does not support item deletion")
  | VNone =>
      inl (Exn TypeError "'NoneType' object does not support item deletion")
  | VInt _ =>
      inl (Exn TypeError "'int' object does not support item deletion")
  | VBool _ =>
      inl (Exn TypeError "'bool' object does not support item deletion")
  end.

(** ** The world: file system and console *)

Record perms : Type := Perms { readable : bool; writable : bool }.

Inductive node : Type :=
| RegFile (content : list byte) (p : perms)
| Directory.

(** [fs] maps a path to what it names, [disk_free] is the number of bytes
    the device can still take, [stdout] the lines printed so far. *)
Record world : Type := World {
  fs : gmap string node;
  disk_free : nat;
  stdout : list string
}.

(** ** State and exception monad *)

Inductive result (A : Type) : Type :=
| Return (a : A)
| Raise (e : exn).
Arguments Return {A} a.
Arguments Raise {A} e.

Definition M (A : Type) : Type := world -> result A * world.

Definition ret {A} (a : A) : M A := fun w => (Return a, w).

Definition raise {A} (e : exn) : M A := fun w => (Raise e, w).

Definition bind {A B} (c : M A) (k : A -> M B) : M B :=
  fun w =>
    match c w with
    | (Return a, w') => k a w'
    | (Raise e, w') => (Raise e, w')
    end.

(** [try: body except Exception as e: handler] *)
Definition try_except {A} (body : M A) (handler : exn -> M A) : M A :=
  fun w =>
    match body w with
    | (Return a, w') => (Return a, w')
    | (Raise e, w') => handler e w'
    end.

(** An expression that evaluates to a value or raises. *)
Definition lift {A} (r : exn + A) : M A :=
  match r with
  | inr a => ret a
  | inl e => raise e
  end.

Declare Scope py_scope.
Delimit Scope py_scope with py.
Notation "'let*' x ':=' c 'in' k" := (bind c (fun x => k))
  (at level 10, x name, c at level 100, k at level 200) : py_scope.
Notation "c '>>' k" := (bind c (fun _ => k))
  (at level 100, k at level 200, right associativity) : py_scope.
Open Scope py_scope.

(** ** Operating system and console *)

(** [print(line)] *)
Definition print (line : string) : M unit :=
  fun w => (Return tt,
            {| fs := fs w; disk_free := disk_free w;
               stdout := stdout w ++ [line] |}).

(** [os.path.exists(path)] *)
Definition os_path_exists (path : string) : M bool :=
  fun w => (Return (bool_decide (is_Some (fs w !! path))), w).

Definition errno_str (code what path : string) : string :=
  "[Errno " ++ code ++ "] " ++ what ++ ": '" ++ path ++ "'".

(** [with open(path, 'rb') as f: return reader(f)], the file object being
    its content. *)
Definition with_open_rb {A} (path : string) (reader : list byte -> exn + A)
  : M A :=
  fun w =>
    match fs w !! path with
    | None =>
        (Raise (Exn FileNotFoundError
                    (errno_str "2" "No such file or directory" path)), w)
    | Some Directory =>
        (Raise (Exn IsADirectoryError (errno_str "21" "Is a directory" path)),
         w)
    | Some (RegFile content p) =>
        if readable p then lift (reader content) w
        else (Raise (Exn PermissionError
                         (errno_str "13" "Permission denied" path)), w)
    end.

(** What closing a file opened with ['wb'] leaves behind: opening released
    the [old] content, the writer emitted [emitted], and the device stores
    as much of it as fits. *)
Definition store (path : string) (old emitted : list byte) (p : perms)
    (w : world) : world :=
  let avail := (disk_free w + length old)%nat in
  let stored := firstn avail emitted in
  {| fs := <[path := RegFile stored p]> (fs w);
     disk_free := (avail - length stored)%nat;
     stdout := stdout w |}.

(** [with open(path, 'wb') as f: writer(f)].  Opening truncates the file
    (or creates it).  The writer is given by the bytes it writes to [f] and
    the exception it ends with, if any.  A device that cannot take all
    the bytes makes the block end with [OSError]. *)
Definition with_open_wb (path : string) (writer : list byte * option exn)
  : M unit :=
  fun w =>
    let run old p :=
      let w' := store path old (fst writer) p w in
      if (length (fst writer) <=? disk_free w + length old)%nat then
        match snd writer with
        | None => (Return tt, w')
        | Some e => (Raise e, w')
        end
      else (Raise (Exn OSError "[Errno 28] No space left on device"), w') in
    match fs w !! path with
    | None => run [] (Perms true true)
    | Some Directory =>
        (Raise (Exn IsADirectoryError (errno_str "21" "Is a directory" path)),
         w)
    | Some (RegFile old p) =>
        if writable p then run old p
        else (Raise (Exn PermissionError
                         (errno_str "13" "Permission denied" path)), w)
    end.

(** ** plistlib *)

Inductive PlistFormat : Type := FMT_XML | FMT_BINARY.

(** The two functions of [plistlib] the script calls, as it calls them.
    [load data] is [plistlib.load(fp)] on a file object of content [data];
    the format is detected from the content.  [dump v] is
    [plistlib.dump(v, fp)], with [fmt] left to its default [FMT_XML]: the
    bytes written to [fp], and the exception the call ends with, if
    any. *)
Record Plistlib : Type := {
  load : list byte -> exn + value;
  dump : value -> list byte * option exn
}.

(** * The script *)

(** The local variable of line 12. *)
Definition plist_path : string := "Silento/Info.plist".

(** The lines the script prints. *)

Definition msg_not_found : string := "Error: " ++ plist_path ++ " not found".
Definition msg_removed : string := "✅ Removed UIApplicationSceneManifest".
Definition msg_already_removed : string :=
  "ℹ️  UIApplicationSceneManifest not found (already removed)".
Definition msg_success : string := "✅ Successfully updated " ++ plist_path.
Definition msg_error (e : exn) : string :=
  "❌ Error updating plist: " ++ exn_str e.

(** [update_info_plist()] *)
Definition update_info_plist (P : Plistlib) : M bool :=
  let* present := os_path_exists plist_path in
  if negb present then
    print msg_not_found >> ret false
  else
    try_except
      (let* plist_data := with_open_rb plist_path (load P) in
       let* found := lift (py_contains "UIApplicationSceneManifest"
                                       plist_data) in
       let* plist_data :=
         (if found then
            let* d := lift (py_delitem plist_data
                                       "UIApplicationSceneManifest") in
            print msg_removed >> ret d
          else
            print msg_already_removed >> ret plist_data) in
       with_open_wb plist_path (dump P plist_data) >>
       print msg_success >>
       ret true)
      (fun e => print (msg_error e) >> ret false).

(** The [__main__] block; the value is the argument of [sys.exit]. *)
Definition main (P : Plistlib) : M Z :=
  print "🔧 Updating Info.plist for SwiftUI..." >>
  let* success := update_info_plist P in
  ret (if success then 0%Z else 1%Z).

(** * Reading the script's runs *)

(** The key of lines 24 and 25. *)
Definition target_key : string := "UIApplicationSceneManifest".

(** The object bound to [plist_data] when the write phase starts, for a
    loaded object [v] (lines 24 to 28 without their [print]s). *)
Definition without_manifest (v : value) : exn + value :=
  match py_contains target_key v with
  | inl e => inl e
  | inr true => py_delitem v target_key
  | inr false => inr v
  end.

(** The world after [lines] were printed. *)
Definition printed (lines : list string) (w : world) : world :=
  {| fs := fs w; disk_free := disk_free w; stdout := stdout w ++ lines |}.

(** The content of the regular file at [path], if there is one. *)
Definition file_content (w : world) (path : string) : option (list byte) :=
  match fs w !! path with
  | Some (RegFile content _) => Some content
  | _ => None
  end.

(** [plistlib]'s format detection on the first bytes of a file:
    [_is_fmt_binary] looks for the magic [bplist00], [_is_fmt_xml] for one
    of the prefixes [<?xml] and [<plist] (UTF-8, with or without byte
    order mark). *)
Fixpoint bytes_prefix (pre data : list byte) : bool :=
  match pre, data with
  | [], _ => true
  | a :: pre', b :: data' => Byte.eqb a b && bytes_prefix pre' data'
  | _ :: _, [] => false
  end.

Definition _is_fmt_binary (header : list byte) : bool :=
  bytes_prefix (list_byte_of_string "bplist00") header.

Definition _is_fmt_xml (header : list byte) : bool :=
  let bom := [xef; xbb; xbf] in
  let starts pre :=
    bytes_prefix (list_byte_of_string pre) header
    || bytes_prefix (bom ++ list_byte_of_string pre) header in
  starts "<?xml" || starts "<plist".

(** The order of [_FORMATS]: XML is tried first. *)
Definition detect_format (data : list byte) : option PlistFormat :=
  let header := firstn 32 data in
  if _is_fmt_xml header then Some FMT_XML
  else if _is_fmt_binary header then Some FMT_BINARY
  else None.

(** * A reference implementation of [plistlib]

    An executable stand-in for CPython's [plistlib], after its source
    ([Lib/plistlib.py]), for the objects of [value].  The XML writer is
    [_PlistWriter]; the XML reader follows [_PlistParser] on documents made
    of the elements [plist], [dict], [key], [array], [string], [integer],
    [true] and [false]; the binary reader follows [_BinaryPlistParser] on
    the objects null, booleans, integers, ASCII strings, arrays and
    dictionaries.  What lies outside is rejected. *)
Module RefPlist.

(** ** Text helpers *)

Definition chr (n : nat) : string := String (ascii_of_nat n) EmptyString.
Definition nl : string := chr 10.
Definition tab : string := chr 9.
Definition dq : string := chr 34.

Definition decimal (n : Z) : string :=
  DecimalString.NilZero.string_of_int (Z.to_int n).

(** ** The XML writer *)

Definition PLISTHEADER : string :=
  "<?xml version=" ++ dq ++ "1.0" ++ dq ++ " encoding=" ++ dq ++ "UTF-8"
  ++ dq ++ "?>" ++ nl
  ++ "<!DOCTYPE plist PUBLIC " ++ dq ++ "-//Apple//DTD PLIST 1.0//EN" ++ dq
  ++ " " ++ dq ++ "http://www.apple.com/DTDs/PropertyList-1.0.dtd" ++ dq
  ++ ">" ++ nl.

(** What a writing routine did: the text it wrote, and the exception it
    ended with, if any. *)
Definition written : Type := (string * option exn)%type.

Definition wr_then (a b : written) : written :=
  match snd a with
  | Some _ => a
  | None => (fst a ++ fst b, snd b)
  end.

Definition wr_fail (e : exn) : written := (EmptyString, Some e).

Definition wr_all (l : list written) : written :=
  fold_right wr_then (EmptyString, None) l.

Fixpoint tabs (n : nat) : string :=
  match n with
  | O => EmptyString
  | S n' => tab ++ tabs n'
  end.

(** [_DumbXMLWriter.writeln] at indentation [level] *)
Definition writeln (level : nat) (line : string) : written :=
  match line with
  | EmptyString => (nl, None)
  | _ => (tabs level ++ line ++ nl, None)
  end.

(** [_controlCharPat]: the characters below U+0020 other than tab, line
    feed and carriage return. *)
Definition is_control (c : ascii) : bool :=
  let n := nat_of_ascii c in
  (n <? 32)%nat && negb ((n =? 9)%nat || (n =? 10)%nat || (n =? 13)%nat).

Fixpoint has_control (s : string) : bool :=
  match s with
  | EmptyString => false
  | String c s' => is_control c || has_control s'
  end.

(** The five [replace] calls of [_escape], in one pass. *)
Fixpoint escape_text (s : string) : string :=
  match s with
  | EmptyString => EmptyString
  | String c s' =>
      let n := nat_of_ascii c in
      if (n =? 13)%nat then
        match s' with
        | String c' s'' =>
            if (nat_of_ascii c' =? 10)%nat then nl ++ escape_text s''
            else nl ++ escape_text s'
        | EmptyString => nl
        end
      else if (n =? 38)%nat then "&amp;" ++ escape_text s'
      else if (n =? 60)%nat then "&lt;" ++ escape_text s'
      else if (n =? 62)%nat then "&gt;" ++ escape_text s'
      else String c (escape_text s')
  end.

Definition _escape (text : string) : exn + string :=
  if has_control text then
    inl (Exn ValueError
           "strings can't contain control characters; use bytes instead")
  else inr (escape_text text).

(** [simple_element(element, value)] and [simple_element(element)] *)
Definition simple_element (level : nat) (element : string)
    (value : option string) : written :=
  match value with
  | Some text =>
      match _escape text with
      | inl e => wr_fail e
      | inr t =>
          writeln level ("<" ++ element ++ ">" ++ t ++ "</" ++ element ++ ">")
      end
  | None => writeln level ("<" ++ element ++ "/>")
  end.

Definition begin_element (level : nat) (element : string) : written :=
  writeln level ("<" ++ element ++ ">").

Definition end_element (level : nat) (element : string) : written :=
  writeln level ("</" ++ element ++ ">").

(** [sorted(d.items())], the keys of a dictionary being distinct: a stable
    insertion sort on the keys, compared as Python compares strings. *)
Fixpoint insert_item {A} (x : string * A) (l : list (string * A))
  : list (string * A) :=
  match l with
  | [] => [x]
  | y :: l' =>
      if String.leb (fst x) (fst y) then x :: y :: l'
      else y :: insert_item x l'
  end.

Definition sorted_items {A} (l : list (string * A)) : list (string * A) :=
  fold_right insert_item [] l.

(** [write_value], with [write_dict] and [write_array] inlined.  The
    values of a dictionary are rendered in the order of the list and the
    renderings are sorted by key afterwards, which writes the same text as
    rendering the sorted items. *)
Fixpoint write_value (level : nat) (v : value) : written :=
  match v with
  | VStr s => simple_element level "string" (Some s)
  | VBool true => simple_element level "true" None
  | VBool false => simple_element level "false" None
  | VInt n =>
      if ((- 2 ^ 63 <=? n) && (n <? 2 ^ 64))%Z then
        simple_element level "integer" (Some (decimal n))
      else wr_fail (Exn OverflowError (decimal n))
  | VDict [] => simple_element level "dict" None
  | VDict d =>
      let rendered :=
        (fix items (l : list (string * value)) : list (string * written) :=
           match l with
           | [] => []
           | (k, x) :: l' => (k, write_value (S level) x) :: items l'
           end) d in
      wr_all
        ([begin_element level "dict"]
         ++ List.map (fun kw =>
                   wr_then (simple_element (S level) "key" (Some (fst kw)))
                           (snd kw))
                (sorted_items rendered)
         ++ [end_element level "dict"])
  | VList [] => simple_element level "array" None
  | VList l =>
      wr_all
        ([begin_element level "array"]
         ++ (fix items (l : list value) : list written :=
               match l with
               | [] => []
               | x :: l' => write_value (S level) x :: items l'
               end) l
         ++ [end_element level "array"])
  | VNone => wr_fail (Exn TypeError "unsupported type: <class 'NoneType'>")
  end.

(** [_PlistWriter(fp).write(value)], after the header written by
    [__init__]. *)
Definition write_plist (v : value) : written :=
  wr_all [ (PLISTHEADER, None);
           writeln 0 ("<plist version=" ++ dq ++ "1.0" ++ dq ++ ">");
           write_value 0 v;
           writeln 0 "</plist>" ].

(** ** The XML reader *)

Inductive token : Type :=
| TStart (name : string)
| TEnd (name : string)
| TText (text : string).

Fixpoint drop (n : nat) (s : string) : string :=
  match n, s with
  | S n', String _ s' => drop n' s'
  | _, _ => s
  end.

(** [s] cut at the first occurrence of [sub]: what stands before it and
    what stands after it. *)
Fixpoint find_sub (sub s : string) : option (string * string) :=
  if String.prefix sub s then Some (EmptyString, drop (String.length sub) s)
  else
    match s with
    | EmptyString => None
    | String c s' =>
        match find_sub sub s' with
        | Some (before, after) => Some (String c before, after)
        | None => None
        end
    end.

Definition is_space (c : ascii) : bool :=
  let n := nat_of_ascii c in
  (n =? 32)%nat || (n =? 9)%nat || (n =? 10)%nat || (n =? 13)%nat.

Fixpoint all_space (s : string) : bool :=
  match s with
  | EmptyString => true
  | String c s' => is_space c && all_space s'
  end.

(** The name of a tag: what stands before its attributes. *)
Fixpoint tag_name (tag : string) : string :=
  match tag with
  | EmptyString => EmptyString
  | String c tag' =>
      if is_space c || (nat_of_ascii c =? 47)%nat then EmptyString
      else String c (tag_name tag')
  end.

Definition self_closing (tag : string) : bool :=
  match String.get (String.length tag - 1) tag with
  | Some c => (nat_of_ascii c =? 47)%nat
  | None => false
  end.

(** Character data up to the next tag, and the rest. *)
Fixpoint span_text (s : string) : string * string :=
  match s with
  | EmptyString => (EmptyString, EmptyString)
  | String c s' =>
      if (nat_of_ascii c =? 60)%nat then (EmptyString, s)
      else let '(text, rest) := span_text s' in (String c text, rest)
  end.

Definition entity (name : string) : option string :=
  if String.eqb name "amp" then Some "&"
  else if String.eqb name "lt" then Some "<"
  else if String.eqb name "gt" then Some ">"
  else if String.eqb name "quot" then Some dq
  else if String.eqb name "apos" then Some "'"
  else None.

(** Character data with its predefined entities replaced; [pending] is the
    part read of an entity name. *)
Fixpoint unescape (pending : option string) (s : string) : option string :=
  match s with
  | EmptyString =>
      match pending with
      | None => Some EmptyString
      | Some _ => None
      end
  | String c s' =>
      match pending with
      | None =>
          if (nat_of_ascii c =? 38)%nat then unescape (Some EmptyString) s'
          else option_map (String c) (unescape None s')
      | Some name =>
          if (nat_of_ascii c =? 59)%nat then
            match entity name, unescape None s' with
            | Some r, Some t => Some (r ++ t)
            | _, _ => None
            end
          else unescape (Some (name ++ String c EmptyString)) s'
      end
  end.

(** The line ends of a document, as the XML processor passes them on. *)
Fixpoint normalize_newlines (s : string) : string :=
  match s with
  | EmptyString => EmptyString
  | String c s' =>
      if (nat_of_ascii c =? 13)%nat then
        match s' with
        | String c' s'' =>
            if (nat_of_ascii c' =? 10)%nat then nl ++ normalize_newlines s''
            else nl ++ normalize_newlines s'
        | EmptyString => nl
        end
      else String c (normalize_newlines s')
  end.

Definition expat_error (msg : string) : exn := Exn ExpatError msg.

(** The tags and character data of a document.  Processing instructions,
    comments and the document type declaration are passed over.  Every
    round consumes a character, so [fuel] above the length of [s] is
    enough. *)
Fixpoint tokenize (fuel : nat) (s : string) : exn + list token :=
  match fuel with
  | O => inl (expat_error "out of memory")
  | S fuel' =>
      match s with
      | EmptyString => inr []
      | String c rest =>
          if (nat_of_ascii c =? 60)%nat then
            let skip_to close :=
              match find_sub close rest with
              | Some (_, after) => tokenize fuel' after
              | None => inl (expat_error "unclosed token")
              end in
            if String.prefix "?" rest then skip_to "?>"
            else if String.prefix "!--" rest then skip_to "-->"
            else if String.prefix "!" rest then skip_to ">"
            else
              match find_sub ">" rest with
              | None => inl (expat_error "unclosed token")
              | Some (tag, after) =>
                  match tokenize fuel' after with
                  | inl e => inl e
                  | inr toks =>
                      if String.prefix "/" tag then
                        inr (TEnd (tag_name (drop 1 tag)) :: toks)
                      else if self_closing tag then
                        inr (TStart (tag_name tag) :: TEnd (tag_name tag)
                               :: toks)
                      else inr (TStart (tag_name tag) :: toks)
                  end
              end
          else
            let '(text, after) := span_text s in
            match unescape None text, tokenize fuel' after with
            | None, _ => inl (expat_error "not well-formed (invalid token)")
            | _, inl e => inl e
            | Some t, inr toks => inr (TText t :: toks)
            end
      end
  end.

(** The state of [_PlistParser].  A container under construction keeps
    the place it was added at ([add_object] in [begin_dict] and
    [begin_array]); it is put there when its element ends. *)
Inductive slot : Type :=
| SlotRoot
| SlotKey (k : string)
| SlotItem.

Inductive frame : Type :=
| FDict (place : slot) (items : list (string * value))
| FList (place : slot) (items : list value).

Record pstate : Type := PState {
  stack : list frame;
  current_key : option string;
  data : string;
  root : value
}.

Definition value_error (msg : string) : exn := Exn ValueError msg.

(** The checks of [add_object]: where the next object goes. *)
Definition claim_slot (st : pstate) : exn + slot :=
  match current_key st, stack st with
  | Some k, FDict _ _ :: _ => inr (SlotKey k)
  | Some _, _ => inl (value_error "unexpected element")
  | None, [] => inr SlotRoot
  | None, FList _ _ :: _ => inr SlotItem
  | None, FDict _ _ :: _ => inl (value_error "unexpected element")
  end.

Definition put (s : slot) (v : value) (st : pstate) : pstate :=
  match s, stack st with
  | SlotRoot, _ =>
      {| stack := stack st; current_key := current_key st; data := data st;
         root := v |}
  | SlotKey k, FDict pl items :: rest =>
      {| stack := FDict pl (dict_setitem k v items) :: rest;
         current_key := current_key st; data := data st; root := root st |}
  | SlotItem, FList pl items :: rest =>
      {| stack := FList pl (items ++ [v]) :: rest;
         current_key := current_key st; data := data st; root := root st |}
  | _, _ => st
  end.

Definition clear_key (st : pstate) : pstate :=
  {| stack := stack st; current_key := None; data := data st;
     root := root st |}.

Definition clear_data (st : pstate) : pstate :=
  {| stack := stack st; current_key := current_key st; data := EmptyString;
     root := root st |}.

Definition add_object (v : value) (st : pstate) : exn + pstate :=
  match claim_slot st with
  | inl e => inl e
  | inr s => inr (put s v (clear_key st))
  end.

(** [begin_dict] and [begin_array] *)
Definition begin_container (mk : slot -> frame) (st : pstate)
  : exn + pstate :=
  match claim_slot st with
  | inl e => inl e
  | inr s =>
      inr {| stack := mk s :: stack st; current_key := None;
             data := data st; root := root st |}
  end.

(** [self.stack.pop()], the finished container going to its place *)
Definition pop_container (st : pstate) : exn + pstate :=
  match stack st with
  | [] => inl (Exn IndexError "pop from empty list")
  | fr :: rest =>
      let st' := {| stack := rest; current_key := current_key st;
                    data := data st; root := root st |} in
      match fr with
      | FDict pl items => inr (put pl (VDict items) st')
      | FList pl items => inr (put pl (VList items) st')
      end
  end.

Definition truthy (k : option string) : bool :=
  match k with
  | Some (String _ _) => true
  | _ => false
  end.

(** [int(raw)] on a plain decimal numeral with an optional sign *)
Definition parse_int (raw : string) : option Z :=
  let digits := if String.prefix "+" raw then drop 1 raw else raw in
  if String.prefix "-" digits && String.prefix "+" raw then None
  else option_map Z.of_int (NilZero.int_of_string digits).

Definition handle_begin_element (element : string) (st : pstate)
  : exn + pstate :=
  let st := clear_data st in
  if String.eqb element "dict" then begin_container (fun s => FDict s []) st
  else if String.eqb element "array" then
    begin_container (fun s => FList s []) st
  else inr st.

Definition handle_end_element (element : string) (st : pstate)
  : exn + pstate :=
  if String.eqb element "dict" then
    if truthy (current_key st) then
      inl (value_error "missing value for key")
    else pop_container st
  else if String.eqb element "array" then pop_container st
  else if String.eqb element "key" then
    match truthy (current_key st), stack st with
    | false, FDict _ _ :: _ =>
        inr {| stack := stack st; current_key := Some (data st);
               data := EmptyString; root := root st |}
    | false, [] => inl (Exn IndexError "list index out of range")
    | _, _ => inl (value_error "unexpected key")
    end
  else if String.eqb element "true" then add_object (VBool true) st
  else if String.eqb element "false" then add_object (VBool false) st
  else if String.eqb element "integer" then
    match parse_int (data st) with
    | Some n => add_object (VInt n) (clear_data st)
    | None => inl (value_error "invalid literal for int() with base 10")
    end
  else if String.eqb element "string" then
    add_object (VStr (data st)) (clear_data st)
  else if String.eqb element "real" || String.eqb element "data"
          || String.eqb element "date" then
    inl (value_error "unsupported element")
  else inr st.

Definition handle_data (text : string) (st : pstate) : pstate :=
  {| stack := stack st; current_key := current_key st;
     data := data st ++ text; root := root st |}.

(** The events of a document, in order.  [open] holds the elements that
    are not closed yet, [closed] tells that the document element is. *)
Fixpoint run_events (toks : list token) (open : list string) (closed : bool)
    (st : pstate) : exn + value :=
  match toks with
  | [] =>
      match open, closed with
      | [], true => inr (root st)
      | _, _ => inl (expat_error "no element found")
      end
  | TStart name :: toks' =>
      match open, closed with
      | [], true => inl (expat_error "junk after document element")
      | _, _ =>
          match handle_begin_element name st with
          | inl e => inl e
          | inr st' => run_events toks' (name :: open) closed st'
          end
      end
  | TEnd name :: toks' =>
      match open with
      | top :: open' =>
          if String.eqb top name then
            match handle_end_element name st with
            | inl e => inl e
            | inr st' =>
                run_events toks' open'
                  (match open' with [] => true | _ => closed end) st'
            end
          else inl (expat_error "mismatched tag")
      | [] => inl (expat_error "not well-formed (invalid token)")
      end
  | TText text :: toks' =>
      match open with
      | [] =>
          if all_space text then run_events toks' open closed st
          else inl (expat_error "syntax error")
      | _ => run_events toks' open closed (handle_data text st)
      end
  end.

Definition strip_bom (s : string) : string :=
  if String.prefix (string_of_list_byte [xef; xbb; xbf]) s then drop 3 s
  else s.

(** [_PlistParser().parse(fp)] *)
Definition parse_xml (content : list byte) : exn + value :=
  let s := normalize_newlines (strip_bom (string_of_list_byte content)) in
  match tokenize (S (String.length s)) s with
  | inl e => inl e
  | inr toks =>
      run_events toks [] false
        {| stack := []; current_key := None; data := EmptyString;
           root := VNone |}
  end.

(** ** The binary reader *)

(** [int.from_bytes(bs, 'big')] *)
Definition be_uint (bs : list byte) : N :=
  fold_left (fun acc b => (acc * 256 + Byte.to_N b)%N) bs 0%N.

(** [int.from_bytes(bs, 'big', signed=True)] *)
Definition be_sint (bs : list byte) : Z :=
  let u := Z.of_N (be_uint bs) in
  let bits := (8 * Z.of_nat (length bs))%Z in
  if (u <? 2 ^ (bits - 1))%Z then u else (u - 2 ^ bits)%Z.

(** [fp.seek(pos); fp.read(n)], [None] when the file is too short. *)
Definition read_exact (content : list byte) (pos n : nat)
  : option (list byte) :=
  let bs := firstn n (skipn pos content) in
  if (length bs =? n)%nat then Some bs else None.

Fixpoint split_ints (size n : nat) (bs : list byte) : list nat :=
  match n with
  | O => []
  | S n' =>
      N.to_nat (be_uint (firstn size bs)) :: split_ints size n' (skipn size bs)
  end.

(** [_read_ints(n, size)] at [pos] *)
Definition read_ints (content : list byte) (pos n size : nat)
  : option (list nat) :=
  if (size =? 0)%nat then None
  else option_map (split_ints size n) (read_exact content pos (size * n)).

(** [_get_size(tokenL)] at [pos]: the size, and where the object goes on *)
Definition get_size (content : list byte) (tokenL : N) (pos : nat)
  : option (nat * nat) :=
  if (tokenL =? 15)%N then
    match nth_error content pos with
    | None => None
    | Some b =>
        let s := N.to_nat (2 ^ N.land (Byte.to_N b) 3) in
        option_map (fun bs => (N.to_nat (be_uint bs), pos + 1 + s)%nat)
                   (read_exact content (pos + 1) s)
    end
  else Some (N.to_nat tokenL, pos).

Fixpoint all_some {A} (l : list (option A)) : option (list A) :=
  match l with
  | [] => Some []
  | Some a :: l' => option_map (cons a) (all_some l')
  | None :: _ => None
  end.

Definition is_ascii (b : byte) : bool := (Byte.to_N b <? 128)%N.

(** The items of a dictionary read from key and value objects; a key has
    to be a string. *)
Fixpoint zip_items (keys vals : list value) (acc : list (string * value))
  : option (list (string * value)) :=
  match keys, vals with
  | VStr k :: keys', v :: vals' => zip_items keys' vals' (dict_setitem k v acc)
  | [], _ | _, [] => Some acc
  | _ :: _, _ :: _ => None
  end.

(** [_read_object(ref)]; [fuel] bounds the depth of the object. *)
Fixpoint read_object (content : list byte) (offsets : list nat)
    (ref_size : nat) (fuel : nat) (ref : nat) : option value :=
  match fuel with
  | O => None
  | S fuel' =>
      match nth_error offsets ref with
      | None => None
      | Some offset =>
          match nth_error content offset with
          | None => None
          | Some tok =>
              let token := Byte.to_N tok in
              let tokenH := N.land token 240 in
              let tokenL := N.land token 15 in
              let read_refs pos n := read_ints content pos n ref_size in
              let objects refs :=
                all_some
                  (List.map (read_object content offsets ref_size fuel')
                            refs) in
              if (token =? 0)%N then Some VNone
              else if (token =? 8)%N then Some (VBool false)
              else if (token =? 9)%N then Some (VBool true)
              else if (tokenH =? 16)%N then
                match read_exact content (offset + 1)
                                 (N.to_nat (2 ^ tokenL)) with
                | None => None
                | Some bs =>
                    Some (VInt (if (3 <=? tokenL)%N then be_sint bs
                                else Z.of_N (be_uint bs)))
                end
              else if (tokenH =? 80)%N then
                match get_size content tokenL (offset + 1) with
                | None => None
                | Some (s, pos) =>
                    match read_exact content pos s with
                    | None => None
                    | Some bs =>
                        if forallb is_ascii bs then
                          Some (VStr (string_of_list_byte bs))
                        else None
                    end
                end
              else if (tokenH =? 160)%N then
                match get_size content tokenL (offset + 1) with
                | None => None
                | Some (s, pos) =>
                    match read_refs pos s with
                    | None => None
                    | Some refs => option_map VList (objects refs)
                    end
                end
              else if (tokenH =? 208)%N then
                match get_size content tokenL (offset + 1) with
                | None => None
                | Some (s, pos) =>
                    match read_refs pos s,
                          read_refs (pos + s * ref_size)%nat s with
                    | Some key_refs, Some obj_refs =>
                        match objects key_refs, objects obj_refs with
                        | Some keys, Some vals =>
                            option_map VDict (zip_items keys vals [])
                        | _, _ => None
                        end
                    | _, _ => None
                    end
                end
              else None
          end
      end
  end.

(** [_BinaryPlistParser().parse(fp)]: the trailer is the last 32 bytes,
    unpacked with [>6xBBQQQ]. *)
Definition parse_binary (content : list byte) : exn + value :=
  let invalid := inl (Exn InvalidFileException "Invalid file") in
  if (length content <? 32)%nat then invalid
  else
    let trailer := skipn (length content - 32) content in
    let field pos n := N.to_nat (be_uint (firstn n (skipn pos trailer))) in
    let offset_size := field 6%nat 1%nat in
    let ref_size := field 7%nat 1%nat in
    let num_objects := field 8%nat 8%nat in
    let top_object := field 16%nat 8%nat in
    let offset_table_offset := field 24%nat 8%nat in
    match read_ints content offset_table_offset num_objects offset_size with
    | None => invalid
    | Some offsets =>
        match read_object content offsets ref_size (S num_objects)
                          top_object with
        | Some v => inr v
        | None => invalid
        end
    end.

(** ** [load] and [dump] *)

(** [plistlib.load(fp)] *)
Definition load (content : list byte) : exn + value :=
  match detect_format content with
  | Some FMT_XML => parse_xml content
  | Some FMT_BINARY => parse_binary content
  | None => inl (Exn InvalidFileException "Invalid file")
  end.

(** [plistlib.dump(value, fp)] *)
Definition dump (v : value) : list byte * option exn :=
  let '(text, e) := write_plist v in (list_byte_of_string text, e).

Definition plistlib : Plistlib := Build_Plistlib load dump.

End RefPlist.

(** * Sample files *)
Module Samples.
Import RefPlist.

Definition rw : perms := Perms true true.

(** A world whose only file is [Silento/Info.plist], with [free] bytes
    left on the device and nothing printed yet. *)
Definition world_of (content : list byte) (p : perms) (free : nat) : world :=
  {| fs := {[ plist_path := RegFile content p ]};
     disk_free := free;
     stdout := [] |}.

Definition plist_open : string :=
  PLISTHEADER ++ "<plist version=" ++ dq ++ "1.0" ++ dq ++ ">" ++ nl.

(** An [Info.plist] that declares a scene manifest. *)
Definition with_manifest : list byte :=
  list_byte_of_string
    (plist_open
     ++ "<dict>" ++ nl
     ++ "  <key>CFBundleVersion</key>" ++ nl
     ++ "  <string>1</string>" ++ nl
     ++ "  <key>UIApplicationSceneManifest</key>" ++ nl
     ++ "  <dict>" ++ nl
     ++ "    <key>UIApplicationSupportsMultipleScenes</key>" ++ nl
     ++ "    <false/>" ++ nl
     ++ "  </dict>" ++ nl
     ++ "  <key>CFBundleName</key>" ++ nl
     ++ "  <string>Silento</string>" ++ nl
     ++ "</dict>" ++ nl
     ++ "</plist>" ++ nl).

(** The same without the manifest, as a text editor may have left it. *)
Definition no_manifest : list byte :=
  list_byte_of_string
    ("<plist><dict><key>CFBundleName</key><string>Silento</string>"
     ++ "<key>CFBundleVersion</key><string>1</string></dict></plist>").

(** A property list whose integer does not fit in 64 bits. *)
Definition big_integer : list byte :=
  list_byte_of_string
    ("<plist><dict><key>CFBundleName</key><string>Silento</string>"
     ++ "<key>Build</key><integer>18446744073709551616</integer>"
     ++ "</dict></plist>").

(** A binary property list holding the dictionary [{'A': True}]: the
    magic, the objects [D1 01 02], [51 41] and [09], the offset table
    [08 0B 0D] and the trailer. *)
Definition binary_plist : list byte :=
  list_byte_of_string "bplist00"
  ++ [xd1; x01; x02; x51; x41; x09]
  ++ [x08; x0b; x0d]
  ++ [x00; x00; x00; x00; x00; x00; x01; x01]
  ++ [x00; x00; x00; x00; x00; x00; x00; x03]
  ++ [x00; x00; x00; x00; x00; x00; x00; x00]
  ++ [x00; x00; x00; x00; x00; x00; x00; x0e].

(** The dictionaries the two of them hold. *)
Definition manifest_doc : list (string * value) :=
  [ ("CFBundleVersion", VStr "1");
    ("UIApplicationSceneManifest",
     VDict [("UIApplicationSupportsMultipleScenes", VBool false)]);
    ("CFBundleName", VStr "Silento") ].

(** [manifest_doc] after the removal, the other keys in their order. *)
Definition trimmed_doc : list (string * value) :=
  [ ("CFBundleVersion", VStr "1"); ("CFBundleName", VStr "Silento") ].

Definition plain_doc : list (string * value) :=
  [ ("CFBundleName", VStr "Silento"); ("CFBundleVersion", VStr "1") ].

(** What [plistlib.dump] writes for [plain_doc]. *)
Definition plain_xml : list byte := fst (dump (VDict plain_doc)).

(** Bytes that are no property list. *)
Definition garbage : list byte := list_byte_of_string "not a plist".

(** A project whose property list lives at another path and is to lose
    another key. *)
Definition other_path : string := "MyApp/Info.plist".
Definition other_key : string := "CFBundleName".

Definition other_world : world :=
  {| fs := {[ other_path := RegFile no_manifest rw ]};
     disk_free := 4096;
     stdout := [] |}.

(** What [plistlib.dump] writes for [trimmed_doc], spelled out. *)
Definition trimmed_xml : list byte :=
  list_byte_of_string
    (plist_open
     ++ "<dict>" ++ nl
     ++ tab ++ "<key>CFBundleName</key>" ++ nl
     ++ tab ++ "<string>Silento</string>" ++ nl
     ++ tab ++ "<key>CFBundleVersion</key>" ++ nl
     ++ tab ++ "<string>1</string>" ++ nl
     ++ "</dict>" ++ nl
     ++ "</plist>" ++ nl).

(** A property list with the key and an integer that does not fit in 64
    bits. *)
Definition manifest_big_integer : list byte :=
  list_byte_of_string
    ("<plist><dict><key>UIApplicationSceneManifest</key><dict/>"
     ++ "<key>Build</key><integer>18446744073709551616</integer>"
     ++ "</dict></plist>").

Definition manifest_big_integer_doc : list (string * value) :=
  [ ("UIApplicationSceneManifest", VDict []);
    ("Build", VInt 18446744073709551616) ].

(** A binary property list holding [{'a\r': 'x', 'a\n': 'y'}], two keys
    that differ in their line end: the magic, the objects [D2 01 02 03 04],
    [52 61 0D], [52 61 0A], [51 78] and [51 79], the offset table and the
    trailer. *)
Definition cr_lf_keys : list byte :=
  list_byte_of_string "bplist00"
  ++ [xd2; x01; x02; x03; x04]
  ++ [x52; x61; x0d] ++ [x52; x61; x0a] ++ [x51; x78] ++ [x51; x79]
  ++ [x08; x0d; x10; x13; x15]
  ++ [x00; x00; x00; x00; x00; x00; x01; x01]
  ++ [x00; x00; x00; x00; x00; x00; x00; x05]
  ++ [x00; x00; x00; x00; x00; x00; x00; x00]
  ++ [x00; x00; x00; x00; x00; x00; x00; x17].

(** A property list whose root is an array that holds the key as one of
    its strings. *)
Definition root_array : list byte :=
  list_byte_of_string
    ("<plist><array><string>UIApplicationSceneManifest</string>"
     ++ "<string>CFBundleName</string></array></plist>").

(** A world where [Silento/Info.plist] is a directory. *)
Definition directory_world : world :=
  {| fs := {[ plist_path := Directory ]};
     disk_free := 4096;
     stdout := [] |}.

(** [with_manifest] at its path, beside another file and after other
    lines were printed. *)
Definition busy_world : world :=
  {| fs := <[ other_path := RegFile no_manifest rw ]>
             {[ plist_path := RegFile with_manifest rw ]};
     disk_free := 4096;
     stdout := ["pod install"; "Pod installation complete!"] |}.

End Samples.

(** * Outcomes *)

(** The line printed before the write phase for a loaded object [v]. *)
Definition note_for (v : value) : string :=
  match py_contains target_key v with
  | inr true => msg_removed
  | _ => msg_already_removed
  end.

Definition no_space : exn := Exn OSError "[Errno 28] No space left on device".

Definition permission_denied : exn :=
  Exn PermissionError (errno_str "13" "Permission denied" plist_path).

(** The end of a run that reached the write phase with [v1] to write over
    the content [old], the note being printed already. *)
Definition write_phase (P : Plistlib) (v1 : value) (old : list byte)
    (p : perms) (w : world) : result bool * world :=
  if writable p then
    let w1 := store plist_path old (fst (dump P v1)) p w in
    if (length (fst (dump P v1)) <=? disk_free w + length old)%nat then
      match snd (dump P v1) with
      | None => (Return true, printed [msg_success] w1)
      | Some e => (Return false, printed [msg_error e] w1)
      end
    else (Return false, printed [msg_error no_space] w1)
  else (Return false, printed [msg_error permission_denied] w).

(** What [open(path, 'rb')] refuses: a directory, and a file the process
    may not read. *)
Definition refuses_reading (n : node) : bool :=
  match n with
  | Directory => true
  | RegFile _ p => negb (readable p)
  end.

Definition is_a_directory : exn :=
  Exn IsADirectoryError (errno_str "21" "Is a directory" plist_path).

(** The line of line 42. *)
Definition msg_banner : string := "🔧 Updating Info.plist for SwiftUI...".

(** The object with the items of its dictionaries, at every depth, in
    the order of their keys: [sorted(d.items())] for each of them.  Two
    objects with the same [canon] differ in the order of the items of
    their dictionaries only. *)
Fixpoint canon (v : value) : value :=
  match v with
  | VList l =>
      VList ((fix items (l : list value) : list value :=
                match l with
                | [] => []
                | x :: l' => canon x :: items l'
                end) l)
  | VDict d =>
      VDict (RefPlist.sorted_items
               ((fix items (d : list (string * value))
                   : list (string * value) :=
                   match d with
                   | [] => []
                   | (k, x) :: d' => (k, canon x) :: items d'
                   end) d))
  | _ => v
  end.

(** The order [sorted] puts the items of a dictionary in. *)
Definition key_le {A : Type} (x y : string * A) : Prop :=
  String.leb (fst x) (fst y) = true.

(** A run gets as far as line 31 and opens the file for writing, with
    [v1] to write over [content]. *)
Definition opened_for_writing (P : Plistlib) (w : world)
    (content : list byte) (p : perms) (v1 : value) : Prop :=
  exists v,
    fs w !! plist_path = Some (RegFile content p)
    /\ readable p = true
    /\ writable p = true
    /\ load P content = inr v
    /\ without_manifest v = inr v1.


(** * Dictionaries *)

Lemma dict_contains_delitem (K k : string) (d : list (string * value)) :
  dict_contains k (dict_delitem K d)
  = dict_contains k d && negb (String.eqb k K).
Proof.
  unfold dict_contains, dict_delitem.
  induction d as [|[k' v] d IH]; simpl; [reflexivity|].
  destruct (String.eqb_spec k' K) as [->|Hne]; simpl.
  - rewrite IH. destruct (String.eqb_spec K k) as [->|Hk]; simpl.
    + rewrite String.eqb_refl. now rewrite andb_false_r.
    + reflexivity.
  - rewrite IH. destruct (String.eqb_spec k' k) as [->|Hk]; simpl.
    + destruct (String.eqb_spec k K); [contradiction | reflexivity].
    + reflexivity.
Qed.

Lemma dict_delitem_absent (K : string) (d : list (string * value)) :
  dict_contains K (dict_delitem K d) = false.
Proof.
  rewrite dict_contains_delitem, String.eqb_refl. apply andb_false_r.
Qed.

Lemma dict_get_delitem_ne (K k : string) (d : list (string * value)) :
  k <> K -> dict_get k (dict_delitem K d) = dict_get k d.
Proof.
  intros Hne. unfold dict_delitem.
  induction d as [|[k' v] d IH]; simpl; [reflexivity|].
  destruct (String.eqb_spec k' K) as [->|Hk']; simpl.
  - destruct (String.eqb_spec K k); [congruence | exact IH].
  - now rewrite IH.
Qed.

Lemma dict_keys_delitem (K : string) (d : list (string * value)) :
  dict_keys (dict_delitem K d)
  = List.filter (fun k => negb (String.eqb k K)) (dict_keys d).
Proof.
  unfold dict_keys, dict_delitem.
  induction d as [|[k' v] d IH]; simpl; [reflexivity|].
  destruct (String.eqb k' K); simpl; now rewrite IH.
Qed.

Lemma dict_delitem_id (K : string) (d : list (string * value)) :
  dict_contains K d = false -> dict_delitem K d = d.
Proof.
  unfold dict_contains, dict_delitem.
  induction d as [|[k' v] d IH]; simpl; [reflexivity|].
  intros H. apply orb_false_iff in H as [Hk Hd].
  rewrite Hk. simpl. now rewrite IH.
Qed.

(** What reaches the write phase does not hold the key any more. *)
Lemma without_manifest_absent (v v1 : value) :
  without_manifest v = inr v1 -> py_contains target_key v1 = inr false.
Proof.
  unfold without_manifest.
  destruct (py_contains target_key v) as [e|[|]] eqn:Hc; [discriminate| |].
  - destruct v; simpl in *; try discriminate.
    destruct (dict_contains target_key items); [|discriminate].
    intros [= <-]. simpl. now rewrite dict_delitem_absent.
  - now intros [= <-].
Qed.

(** A second pass over it changes nothing. *)
Lemma without_manifest_fixed (v v1 : value) :
  without_manifest v = inr v1 -> without_manifest v1 = inr v1.
Proof.
  intros H. unfold without_manifest.
  now rewrite (without_manifest_absent _ _ H).
Qed.

(** * Worlds *)

Lemma printed_printed (a b : list string) (w : world) :
  printed b (printed a w) = printed (a ++ b) w.
Proof. unfold printed; simpl. now rewrite <- app_assoc. Qed.

Lemma store_printed (path : string) (old out : list byte) (p : perms)
    (l : list string) (w : world) :
  store path old out p (printed l w) = printed l (store path old out p w).
Proof. reflexivity. Qed.

Lemma msg_not_found_distinct (e : exn) : msg_not_found <> msg_error e.
Proof. unfold msg_not_found, msg_error. simpl. discriminate. Qed.

(** * Runs of the script *)
Section Runs.

Variable P : Plistlib.

Lemma exists_true (w : world) (n : node) :
  fs w !! plist_path = Some n ->
  os_path_exists plist_path w = (Return true, w).
Proof.
  intros H. unfold os_path_exists. rewrite H.
  now rewrite bool_decide_eq_true_2 by eauto.
Qed.

Lemma exists_false (w : world) :
  fs w !! plist_path = None ->
  os_path_exists plist_path w = (Return false, w).
Proof.
  intros H. unfold os_path_exists. rewrite H.
  rewrite bool_decide_eq_false_2; [reflexivity|].
  intros [x Hx]. discriminate.
Qed.

(** Nothing at the path: line 15 and line 16. *)
Lemma run_not_found (w : world) :
  fs w !! plist_path = None ->
  update_info_plist P w = (Return false, printed [msg_not_found] w).
Proof.
  intros H. unfold update_info_plist, bind.
  rewrite (exists_false w H). reflexivity.
Qed.

(** A directory at the path: [open] raises. *)
Lemma run_directory (w : world) :
  fs w !! plist_path = Some Directory ->
  exists e, exn_type e = IsADirectoryError /\
    update_info_plist P w = (Return false, printed [msg_error e] w).
Proof.
  intros H. eexists. split; [|unfold update_info_plist, bind].
  2: { rewrite (exists_true w _ H). simpl.
       unfold try_except, bind, with_open_rb. rewrite H. reflexivity. }
  reflexivity.
Qed.

(** A file the process may not read. *)
Lemma run_unreadable (w : world) (content : list byte) (p : perms) :
  fs w !! plist_path = Some (RegFile content p) ->
  readable p = false ->
  update_info_plist P w
  = (Return false, printed [msg_error permission_denied] w).
Proof.
  intros H Hr. unfold update_info_plist, bind.
  rewrite (exists_true w _ H). simpl.
  unfold try_except, bind, with_open_rb. rewrite H, Hr. reflexivity.
Qed.

(** A file [plistlib.load] rejects. *)
Lemma run_load_error (w : world) (content : list byte) (p : perms)
    (e : exn) :
  fs w !! plist_path = Some (RegFile content p) ->
  readable p = true ->
  load P content = inl e ->
  update_info_plist P w = (Return false, printed [msg_error e] w).
Proof.
  intros H Hr Hl. unfold update_info_plist, bind.
  rewrite (exists_true w _ H). simpl.
  unfold try_except, bind, with_open_rb. rewrite H, Hr, Hl. reflexivity.
Qed.

(** A loaded object on which line 24 or line 25 raises. *)
Lemma run_object_error (w : world) (content : list byte) (p : perms)
    (v : value) (e : exn) :
  fs w !! plist_path = Some (RegFile content p) ->
  readable p = true ->
  load P content = inr v ->
  without_manifest v = inl e ->
  update_info_plist P w = (Return false, printed [msg_error e] w).
Proof.
  intros H Hr Hl Hm. unfold update_info_plist, bind.
  rewrite (exists_true w _ H). simpl.
  unfold try_except, bind, with_open_rb. rewrite H, Hr, Hl. simpl.
  unfold without_manifest, target_key in Hm.
  destruct (py_contains _ v) as [e'|[|]]; simpl.
  - injection Hm as ->. reflexivity.
  - rewrite Hm. reflexivity.
  - discriminate.
Qed.

(** A loaded object that reaches the write phase. *)
Lemma run_write (w : world) (content : list byte) (p : perms)
    (v v1 : value) :
  fs w !! plist_path = Some (RegFile content p) ->
  readable p = true ->
  load P content = inr v ->
  without_manifest v = inr v1 ->
  update_info_plist P w
  = write_phase P v1 content p (printed [note_for v] w).
Proof.
  intros H Hr Hl Hm. unfold update_info_plist, bind.
  rewrite (exists_true w _ H). simpl.
  unfold try_except, bind, with_open_rb. rewrite H, Hr, Hl. simpl.
  unfold without_manifest, note_for, target_key in *.
  destruct (py_contains _ v) as [e'|[|]]; simpl;
    [discriminate | rewrite Hm | injection Hm as ->];
    simpl; unfold with_open_wb, write_phase; simpl; rewrite H;
    (destruct (writable p); [|reflexivity]);
    (destruct (_ <=? _)%nat; [|reflexivity]);
    destruct (snd (dump P v1)); reflexivity.
Qed.

End Runs.

(** What [store] leaves when the device takes all the bytes. *)
Lemma store_fits (path : string) (old out : list byte) (p : perms)
    (w : world) :
  length out <= disk_free w + length old ->
  store path old out p w
  = {| fs := <[path := RegFile out p]> (fs w);
       disk_free := disk_free w + length old - length out;
       stdout := stdout w |}.
Proof.
  intros Hfit. unfold store. cbv zeta.
  now rewrite (firstn_all2 out Hfit).
Qed.

Section Cases.

Variable P : Plistlib.

(** Every run takes one of three courses: nothing at the path; a failure
    before the write phase; the write phase. *)
Lemma run_cases (w : world) :
  (fs w !! plist_path = None /\
   update_info_plist P w = (Return false, printed [msg_not_found] w))
  \/ (exists e,
       is_Some (fs w !! plist_path) /\
       update_info_plist P w = (Return false, printed [msg_error e] w))
  \/ (exists content p v v1,
       fs w !! plist_path = Some (RegFile content p) /\
       readable p = true /\
       load P content = inr v /\
       without_manifest v = inr v1 /\
       update_info_plist P w
       = write_phase P v1 content p (printed [note_for v] w)).
Proof.
  destruct (fs w !! plist_path) as [[content p|]|] eqn:Hfs.
  - destruct (readable p) eqn:Hr.
    + destruct (load P content) as [e|v] eqn:Hl.
      * right; left. exists e. split; [eauto|].
        now apply (run_load_error P w content p).
      * destruct (without_manifest v) as [e|v1] eqn:Hm.
        -- right; left. exists e. split; [eauto|].
           now apply (run_object_error P w content p v).
        -- right; right. exists content, p, v, v1.
           repeat split; try assumption. now apply run_write.
    + right; left. exists permission_denied. split; [eauto|].
      now apply (run_unreadable P w content p).
  - right; left. destruct (run_directory P w Hfs) as (e & _ & He).
    exists e. split; [eauto | assumption].
  - left. split; [reflexivity | now apply run_not_found].
Qed.

(** The write phase ends with a result, never with an exception. *)
Lemma write_phase_returns (v1 : value) (old : list byte) (p : perms)
    (w : world) :
  exists b w', write_phase P v1 old p w = (Return b, w').
Proof.
  unfold write_phase.
  destruct (writable p); [|eauto].
  destruct (_ <=? _)%nat; [|eauto].
  destruct (snd (dump P v1)); eauto.
Qed.

(** A successful write phase. *)
Lemma write_phase_true (v1 : value) (old : list byte) (p : perms)
    (w w' : world) :
  write_phase P v1 old p w = (Return true, w') ->
  writable p = true /\
  snd (dump P v1) = None /\
  length (fst (dump P v1)) <= disk_free w + length old /\
  w' = printed [msg_success] (store plist_path old (fst (dump P v1)) p w).
Proof.
  unfold write_phase.
  destruct (writable p); [|discriminate].
  destruct (_ <=? _)%nat eqn:Hfit; [|discriminate].
  destruct (snd (dump P v1)); [discriminate|].
  intros [= <-]. apply Nat.leb_le in Hfit. auto.
Qed.

(** A failed write phase: the file was not opened, or it holds what the
    device took of the bytes written before the failure. *)
Lemma write_phase_false (v1 : value) (old : list byte) (p : perms)
    (w w' : world) :
  write_phase P v1 old p w = (Return false, w') ->
  (writable p = false /\ fs w' = fs w)
  \/ (writable p = true /\
      (snd (dump P v1) <> None
       \/ disk_free w + length old < length (fst (dump P v1))) /\
      fs w'
      = <[plist_path :=
            RegFile (firstn (disk_free w + length old) (fst (dump P v1))) p]>
          (fs w)).
Proof.
  unfold write_phase.
  destruct (writable p); [|intros [= <-]; left; auto].
  destruct (_ <=? _)%nat eqn:Hfit.
  - destruct (snd (dump P v1)) eqn:He; [|discriminate].
    intros [= <-]. right. split; [reflexivity|].
    split; [left; discriminate | reflexivity].
  - intros [= <-]. right. apply Nat.leb_gt in Hfit.
    split; [reflexivity|]. split; [right; assumption | reflexivity].
Qed.

(** A successful run, read backwards. *)
Lemma run_true (w w' : world) :
  update_info_plist P w = (Return true, w') ->
  exists content p v v1,
    fs w !! plist_path = Some (RegFile content p) /\
    readable p = true /\ writable p = true /\
    load P content = inr v /\
    without_manifest v = inr v1 /\
    snd (dump P v1) = None /\
    length (fst (dump P v1)) <= disk_free w + length content /\
    w' = printed [note_for v; msg_success]
           (store plist_path content (fst (dump P v1)) p w).
Proof.
  intros Hrun.
  destruct (run_cases w) as [[_ H]|[(e & _ & H)|H]];
    [rewrite H in Hrun; discriminate .. |].
  destruct H as (content & p & v & v1 & Hfs & Hr & Hl & Hm & H).
  rewrite H in Hrun. apply write_phase_true in Hrun.
  destruct Hrun as (Hw & He & Hfit & ->).
  exists content, p, v, v1. repeat split; try assumption.
  rewrite store_printed, printed_printed. reflexivity.
Qed.

End Cases.

(** * Sorted items *)

Lemma string_leb_refl (s : string) : String.leb s s = true.
Proof. now destruct (String.leb_total s s). Qed.

Section SortedItems.

Context {A : Type}.

Lemma insert_item_sorted (x : string * A) (l : list (string * A)) :
  Sorted (@key_le A) l -> Sorted (@key_le A) (RefPlist.insert_item x l).
Proof.
  induction l as [|y l IH]; simpl; intros Hs.
  - repeat constructor.
  - destruct (String.leb (fst x) (fst y)) eqn:Hxy.
    + constructor; [exact Hs | constructor; exact Hxy].
    + apply Sorted_inv in Hs as [Hs Hhd].
      constructor; [now apply IH|].
      assert (Hyx : key_le y x).
      { unfold key_le. destruct (String.leb_total (fst x) (fst y)); congruence. }
      destruct l as [|z l]; simpl; [now constructor|].
      destruct (String.leb (fst x) (fst z)); constructor; [exact Hyx|].
      now apply HdRel_inv in Hhd.
Qed.

Lemma sorted_items_sorted (l : list (string * A)) :
  Sorted (@key_le A) (RefPlist.sorted_items l).
Proof.
  induction l as [|x l IH]; simpl; [constructor|].
  now apply insert_item_sorted.
Qed.

Lemma sorted_items_id (l : list (string * A)) :
  Sorted (@key_le A) l -> RefPlist.sorted_items l = l.
Proof.
  induction l as [|x l IH]; simpl; [reflexivity|].
  intros Hs. apply Sorted_inv in Hs as [Hs Hhd]. rewrite (IH Hs).
  destruct l as [|y l]; simpl; [reflexivity|].
  apply HdRel_inv in Hhd. unfold key_le in Hhd. now rewrite Hhd.
Qed.

Lemma sorted_items_twice (l : list (string * A)) :
  RefPlist.sorted_items (RefPlist.sorted_items l) = RefPlist.sorted_items l.
Proof. apply sorted_items_id, sorted_items_sorted. Qed.

Lemma sorted_items_nil (l : list (string * A)) :
  RefPlist.sorted_items l = [] -> l = [].
Proof.
  destruct l as [|x l]; [reflexivity|]. simpl.
  destruct (RefPlist.sorted_items l) as [|y l']; simpl; [discriminate|].
  destruct (String.leb (fst x) (fst y)); discriminate.
Qed.

End SortedItems.

Lemma sorted_items_map {A B : Type} (f : A -> B) (l : list (string * A)) :
  RefPlist.sorted_items (List.map (fun kv => (fst kv, f (snd kv))) l)
  = List.map (fun kv => (fst kv, f (snd kv))) (RefPlist.sorted_items l).
Proof.
  induction l as [|x l IH]; simpl; [reflexivity|]. rewrite IH.
  generalize (RefPlist.sorted_items l). intros m.
  induction m as [|y m IHm]; simpl; [reflexivity|].
  destruct (String.leb (fst x) (fst y)); simpl; [reflexivity|].
  now rewrite IHm.
Qed.

(** Sorting is stable, so a key keeps the value it has. *)
Lemma dict_get_insert_item (k : string) (x : string * value)
    (l : list (string * value)) :
  dict_get k (RefPlist.insert_item x l)
  = if String.eqb (fst x) k then Some (snd x) else dict_get k l.
Proof.
  destruct x as [kx vx]. simpl.
  induction l as [|[ky vy] l IH]; simpl; [reflexivity|].
  destruct (String.leb kx ky) eqn:Hxy; simpl; [reflexivity|].
  rewrite IH.
  destruct (String.eqb_spec ky k) as [->|Hy]; [|reflexivity].
  destruct (String.eqb_spec kx k) as [->|Hx]; [|reflexivity].
  now rewrite string_leb_refl in Hxy.
Qed.

Lemma dict_get_sorted_items (k : string) (l : list (string * value)) :
  dict_get k (RefPlist.sorted_items l) = dict_get k l.
Proof.
  induction l as [|[kx vx] l IH]; simpl; [reflexivity|].
  now rewrite dict_get_insert_item, IH.
Qed.

Lemma dict_get_map (f : value -> value) (k : string)
    (l : list (string * value)) :
  dict_get k (List.map (fun kv => (fst kv, f (snd kv))) l)
  = option_map f (dict_get k l).
Proof.
  induction l as [|[kx vx] l IH]; simpl; [reflexivity|].
  destruct (String.eqb kx k); [reflexivity | exact IH].
Qed.

Lemma dict_contains_get (k : string) (d : list (string * value)) :
  dict_contains k d
  = match dict_get k d with Some _ => true | None => false end.
Proof.
  unfold dict_contains.
  induction d as [|[kx vx] d IH]; simpl; [reflexivity|].
  destruct (String.eqb kx k); [reflexivity | exact IH].
Qed.

(** * Canonical objects *)

Lemma canon_list (l : list value) :
  canon (VList l) = VList (List.map canon l).
Proof.
  reflexivity.
Qed.

Lemma canon_dict (d : list (string * value)) :
  canon (VDict d)
  = VDict (RefPlist.sorted_items
             (List.map (fun kv => (fst kv, canon (snd kv))) d)).
Proof.
  simpl. do 2 f_equal.
  induction d as [|[k x] d IH]; [reflexivity|]. now rewrite IH.
Qed.

Lemma canon_dict_get (k : string) (d1 d2 : list (string * value)) :
  canon (VDict d2) = canon (VDict d1) ->
  option_map canon (dict_get k d2) = option_map canon (dict_get k d1).
Proof.
  rewrite !canon_dict. intros [= H].
  apply (f_equal (dict_get k)) in H.
  now rewrite !dict_get_sorted_items, !dict_get_map in H.
Qed.

Lemma canon_dict_inv (v : value) (d : list (string * value)) :
  canon v = canon (VDict d) -> exists d2, v = VDict d2.
Proof.
  rewrite canon_dict. destruct v; try discriminate. eauto.
Qed.

Lemma is_str_canon (k : string) (v : value) :
  is_str k (canon v) = is_str k v.
Proof. destruct v; try reflexivity. Qed.

Lemma py_contains_canon (k : string) (v : value) :
  py_contains k (canon v) = py_contains k v.
Proof.
  destruct v as [|s|n|b|l|d]; try reflexivity.
  - rewrite canon_list. simpl. f_equal.
    induction l as [|x l IH]; simpl; [reflexivity|].
    now rewrite is_str_canon, IH.
  - rewrite canon_dict. simpl. f_equal.
    now rewrite !dict_contains_get, dict_get_sorted_items, dict_get_map;
      destruct (dict_get k d).
Qed.

Lemma dict_get_delitem (K k : string) (d : list (string * value)) :
  dict_get k (dict_delitem K d)
  = if String.eqb k K then None else dict_get k d.
Proof.
  destruct (String.eqb_spec k K) as [->|Hne].
  - pose proof (dict_delitem_absent K d) as H.
    rewrite dict_contains_get in H. now destruct (dict_get K _).
  - now apply dict_get_delitem_ne.
Qed.

(** * The writer sorts *)

Lemma value_nested_ind (Q : value -> Prop) :
  Q VNone ->
  (forall s, Q (VStr s)) ->
  (forall n, Q (VInt n)) ->
  (forall b, Q (VBool b)) ->
  (forall l, Forall Q l -> Q (VList l)) ->
  (forall d, Forall (fun kv => Q (snd kv)) d -> Q (VDict d)) ->
  forall v, Q v.
Proof.
  intros HN HS HI HB HL HD.
  fix IH 1. intros [|s|n|b|l|d].
  - exact HN.
  - apply HS.
  - apply HI.
  - apply HB.
  - apply HL. induction l as [|x l IHl]; constructor; [apply IH | exact IHl].
  - apply HD. induction d as [|[k x] d IHd]; constructor;
      [apply IH | exact IHd].
Qed.

Lemma write_value_list (level : nat) (l : list value) :
  RefPlist.write_value level (VList l)
  = match l with
    | [] => RefPlist.simple_element level "array" None
    | _ =>
        RefPlist.wr_all
          ([RefPlist.begin_element level "array"]
           ++ List.map (RefPlist.write_value (S level)) l
           ++ [RefPlist.end_element level "array"])
    end.
Proof. destruct l; reflexivity. Qed.

Lemma write_value_dict (level : nat) (d : list (string * value)) :
  RefPlist.write_value level (VDict d)
  = match d with
    | [] => RefPlist.simple_element level "dict" None
    | _ =>
        RefPlist.wr_all
          ([RefPlist.begin_element level "dict"]
           ++ List.map
                (fun kw =>
                   RefPlist.wr_then
                     (RefPlist.simple_element (S level) "key" (Some (fst kw)))
                     (snd kw))
                (RefPlist.sorted_items
                   (List.map
                      (fun kv =>
                         (fst kv, RefPlist.write_value (S level) (snd kv)))
                      d))
           ++ [RefPlist.end_element level "dict"])
    end.
Proof.
  destruct d as [|[k0 x0] d]; [reflexivity|].
  assert (H : forall m : list (string * value),
    (fix items (l : list (string * value))
       : list (string * RefPlist.written) :=
       match l with
       | [] => []
       | (k, x) :: l' => (k, RefPlist.write_value (S level) x) :: items l'
       end) m
    = List.map (fun kv => (fst kv, RefPlist.write_value (S level) (snd kv)))
               m).
  { induction m as [|[k x] m IHm]; [reflexivity|]. now rewrite IHm. }
  cbn [RefPlist.write_value]. now rewrite H.
Qed.

Lemma write_value_canon (v : value) :
  forall level,
    RefPlist.write_value level (canon v) = RefPlist.write_value level v.
Proof.
  induction v as [|s|n|b|l IH|d IH] using value_nested_ind; intros level;
    try reflexivity.
  - rewrite canon_list, !write_value_list.
    assert (Hmap : List.map (RefPlist.write_value (S level))
                            (List.map canon l)
                   = List.map (RefPlist.write_value (S level)) l).
    { rewrite List.map_map. apply List.map_ext_Forall.
      eapply List.Forall_impl; [|exact IH]. intros y Hy. apply Hy. }
    destruct l as [|x l]; [reflexivity|].
    change (List.map canon (x :: l)) with (canon x :: List.map canon l) in *.
    cbv iota. now rewrite Hmap.
  - rewrite canon_dict, !write_value_dict.
    set (cd := RefPlist.sorted_items
                 (List.map (fun kv => (fst kv, canon (snd kv))) d)).
    assert (Hmap : RefPlist.sorted_items
                     (List.map (fun kv => (fst kv,
                                  RefPlist.write_value (S level) (snd kv))) cd)
                   = RefPlist.sorted_items
                       (List.map (fun kv => (fst kv,
                                    RefPlist.write_value (S level) (snd kv)))
                                 d)).
    { subst cd.
      rewrite (sorted_items_map (RefPlist.write_value (S level))
                 (RefPlist.sorted_items _)).
      rewrite sorted_items_twice.
      rewrite <- (sorted_items_map (RefPlist.write_value (S level))).
      f_equal. rewrite List.map_map. apply List.map_ext_Forall.
      eapply List.Forall_impl; [|exact IH]. intros [k x] Hx. simpl in *.
      now rewrite Hx. }
    destruct d as [|kv d]; [reflexivity|].
    destruct cd as [|kv' d'] eqn:Hs.
    { subst cd. apply sorted_items_nil in Hs. discriminate Hs. }
    now rewrite Hmap.
Qed.

(** [RefPlist.dump] writes the same for an object and for its sorted
    form. *)
Lemma ref_dump_canon (v : value) :
  RefPlist.dump (canon v) = RefPlist.dump v.
Proof.
  unfold RefPlist.dump, RefPlist.write_plist.
  now rewrite write_value_canon.
Qed.

(** * The properties of the specification *)

(** C1, as stated, fails: [Samples.manifest_big_integer] is a property
    list with the key, in a file the process may read and write on a
    device with room; line 25 removes the key and line 26 prints the
    removal, then [plistlib.dump] raises [OverflowError] at the integer
    and the run returns [False]. *)
Lemma present_key_may_fail :
  ~ (forall (P : Plistlib) (w : world) (content : list byte) (p : perms)
            (d : list (string * value)),
       fs w !! plist_path = Some (RegFile content p) ->
       readable p = true ->
       writable p = true ->
       load P content = inr (VDict d) ->
       dict_contains target_key d = true ->
       length (fst (dump P (VDict (dict_delitem target_key d))))
       <= disk_free w + length content ->
       fst (update_info_plist P w) = Return true).
Proof.
  intros H.
  specialize (H RefPlist.plistlib
                (Samples.world_of Samples.manifest_big_integer Samples.rw 4096)
                Samples.manifest_big_integer Samples.rw
                Samples.manifest_big_integer_doc).
  assert (Hrun : fst (update_info_plist RefPlist.plistlib
                   (Samples.world_of Samples.manifest_big_integer
                                     Samples.rw 4096))
                 = Return false) by (vm_compute; reflexivity).
  rewrite Hrun in H. discriminate H.
  - vm_compute. reflexivity.
  - reflexivity.
  - reflexivity.
  - vm_compute. reflexivity.
  - vm_compute. reflexivity.
  - apply Nat.leb_le. vm_compute. reflexivity.
Qed.

(** What [plistlib] reads back may differ from what it was given to
    write: a carriage return in a string is written as a line feed. *)
Example carriage_return_read_back_as_line_feed :
  let v := VDict [("CFBundleName",
                   VStr ("a" ++ RefPlist.chr 13 ++ "b"))] in
  snd (RefPlist.dump v) = None
  /\ RefPlist.load (fst (RefPlist.dump v))
     = inr (VDict [("CFBundleName", VStr ("a" ++ RefPlist.nl ++ "b"))]).
Proof. split; vm_compute; reflexivity. Qed.

(** C1, amended.  A file that holds a dictionary with the key, that the
    process may read and write, and for whose dictionary without the key
    [plistlib.dump] ends without exception with bytes the device takes:
    the run prints the removal and the success, returns [True], and
    leaves these bytes at the same path; the dictionary they were
    written for has the keys of the loaded one but the target, in the
    same order, each with the value it had.  When [plistlib.load] reads
    from these bytes the object they were written for, up to the order of
    the keys, the document it loads from the file after the run has
    exactly these keys, each with the value it had. *)
Theorem present_key_removed (P : Plistlib) (w : world)
    (content out : list byte) (p : perms) (d : list (string * value))
    (v2 : value) :
  fs w !! plist_path = Some (RegFile content p) ->
  readable p = true ->
  writable p = true ->
  load P content = inr (VDict d) ->
  dict_contains target_key d = true ->
  dump P (VDict (dict_delitem target_key d)) = (out, None) ->
  length out <= disk_free w + length content ->
  load P out = inr v2 ->
  canon v2 = canon (VDict (dict_delitem target_key d)) ->
  update_info_plist P w
  = (Return true,
     {| fs := <[plist_path := RegFile out p]> (fs w);
        disk_free := disk_free w + length content - length out;
        stdout := stdout w ++ [msg_removed; msg_success] |})
  /\ (forall k, dict_contains k (dict_delitem target_key d)
                = dict_contains k d && negb (String.eqb k target_key))
  /\ (forall k, k <> target_key ->
                dict_get k (dict_delitem target_key d) = dict_get k d)
  /\ dict_keys (dict_delitem target_key d)
     = List.filter (fun k => negb (String.eqb k target_key)) (dict_keys d)
  /\ exists d2,
       file_content (snd (update_info_plist P w)) plist_path = Some out
       /\ load P out = inr (VDict d2)
       /\ forall k,
            option_map canon (dict_get k d2)
            = if String.eqb k target_key then None
              else option_map canon (dict_get k d).
Proof.
  intros Hfs Hr Hw Hl Hc Hd Hfit Hback Hsame.
  assert (Hrun : update_info_plist P w
    = (Return true,
       {| fs := <[plist_path := RegFile out p]> (fs w);
          disk_free := disk_free w + length content - length out;
          stdout := stdout w ++ [msg_removed; msg_success] |})).
  { assert (Hm : without_manifest (VDict d)
                 = inr (VDict (dict_delitem target_key d))).
    { unfold without_manifest. simpl. now rewrite Hc. }
    rewrite (run_write P w content p _ _ Hfs Hr Hl Hm).
    unfold write_phase, note_for. simpl. rewrite Hw, Hc, Hd. simpl.
    apply Nat.leb_le in Hfit as Hfit'. simpl in Hfit'. rewrite Hfit'.
    rewrite store_printed, printed_printed, store_fits by exact Hfit.
    reflexivity. }
  split; [exact Hrun|]. split; [|split; [|split]].
  - intros k. apply dict_contains_delitem.
  - intros k Hk. now apply dict_get_delitem_ne.
  - apply dict_keys_delitem.
  - destruct (canon_dict_inv v2 _ Hsame) as (d2 & ->).
    exists d2. split; [|split; [exact Hback|]].
    + rewrite Hrun. unfold file_content. simpl.
      now rewrite lookup_insert_eq.
    + intros k. rewrite (canon_dict_get k _ _ Hsame), dict_get_delitem.
      now destruct (String.eqb k target_key).
Qed.

Lemma present_key_removed_witness :
  update_info_plist RefPlist.plistlib
    (Samples.world_of Samples.with_manifest Samples.rw 4096)
  = (Return true,
     {| fs := <[plist_path := RegFile Samples.trimmed_xml Samples.rw]>
                (fs (Samples.world_of Samples.with_manifest Samples.rw 4096));
        disk_free := 4096 + length Samples.with_manifest
                     - length Samples.trimmed_xml;
        stdout := [] ++ [msg_removed; msg_success] |})
  /\ (forall k, dict_contains k (dict_delitem target_key Samples.manifest_doc)
                = dict_contains k Samples.manifest_doc
                  && negb (String.eqb k target_key))
  /\ (forall k, k <> target_key ->
                dict_get k (dict_delitem target_key Samples.manifest_doc)
                = dict_get k Samples.manifest_doc)
  /\ dict_keys (dict_delitem target_key Samples.manifest_doc)
     = List.filter (fun k => negb (String.eqb k target_key))
                   (dict_keys Samples.manifest_doc)
  /\ exists d2,
       file_content
         (snd (update_info_plist RefPlist.plistlib
                 (Samples.world_of Samples.with_manifest Samples.rw 4096)))
         plist_path
       = Some Samples.trimmed_xml
       /\ load RefPlist.plistlib Samples.trimmed_xml = inr (VDict d2)
       /\ forall k,
            option_map canon (dict_get k d2)
            = if String.eqb k target_key then None
              else option_map canon (dict_get k Samples.manifest_doc).
Proof.
  apply (present_key_removed RefPlist.plistlib
           (Samples.world_of Samples.with_manifest Samples.rw 4096)
           Samples.with_manifest Samples.trimmed_xml Samples.rw
           Samples.manifest_doc (VDict Samples.plain_doc)).
  - vm_compute. reflexivity.
  - reflexivity.
  - reflexivity.
  - vm_compute. reflexivity.
  - vm_compute. reflexivity.
  - vm_compute. reflexivity.
  - apply Nat.leb_le. vm_compute. reflexivity.
  - vm_compute. reflexivity.
  - vm_compute. reflexivity.
Defined.

(** C2, as stated, fails: [Samples.big_integer] is a property list
    without the key, in a file the process may read and write on a
    device with room; the run prints that the key was not found, then
    [plistlib.dump] raises [OverflowError] at the integer and the run
    returns [False]. *)
Lemma absent_key_may_fail :
  ~ (forall (P : Plistlib) (w : world) (content : list byte) (p : perms)
            (d : list (string * value)),
       fs w !! plist_path = Some (RegFile content p) ->
       readable p = true ->
       writable p = true ->
       load P content = inr (VDict d) ->
       dict_contains target_key d = false ->
       length (fst (dump P (VDict d))) <= disk_free w + length content ->
       fst (update_info_plist P w) = Return true).
Proof.
  intros H.
  specialize (H RefPlist.plistlib
                (Samples.world_of Samples.big_integer Samples.rw 4096)
                Samples.big_integer Samples.rw
                [("CFBundleName", VStr "Silento");
                 ("Build", VInt 18446744073709551616)]).
  assert (Hrun : fst (update_info_plist RefPlist.plistlib
                   (Samples.world_of Samples.big_integer Samples.rw 4096))
                 = Return false) by (vm_compute; reflexivity).
  rewrite Hrun in H. discriminate H.
  - vm_compute. reflexivity.
  - reflexivity.
  - reflexivity.
  - vm_compute. reflexivity.
  - vm_compute. reflexivity.
  - apply Nat.leb_le. vm_compute. reflexivity.
Qed.

(** C2, amended.  A file that holds a dictionary without the key, that
    the process may read and write, and for whose dictionary
    [plistlib.dump] ends without exception with bytes the device takes:
    the run prints that the key was not found and the success, neither
    of them an error report, returns [True], and leaves at the path the
    bytes written for the very dictionary that was loaded.  When
    [plistlib.load] reads from these bytes the object they were written
    for, up to the order of the keys, the document it loads from the
    file after the run has the keys of the loaded one, each with the
    value it had. *)
Theorem absent_key_kept (P : Plistlib) (w : world)
    (content out : list byte) (p : perms) (d : list (string * value))
    (v2 : value) :
  fs w !! plist_path = Some (RegFile content p) ->
  readable p = true ->
  writable p = true ->
  load P content = inr (VDict d) ->
  dict_contains target_key d = false ->
  dump P (VDict d) = (out, None) ->
  length out <= disk_free w + length content ->
  load P out = inr v2 ->
  canon v2 = canon (VDict d) ->
  update_info_plist P w
  = (Return true,
     {| fs := <[plist_path := RegFile out p]> (fs w);
        disk_free := disk_free w + length content - length out;
        stdout := stdout w ++ [msg_already_removed; msg_success] |})
  /\ without_manifest (VDict d) = inr (VDict d)
  /\ (forall e, msg_error e <> msg_already_removed
                /\ msg_error e <> msg_success)
  /\ exists d2,
       file_content (snd (update_info_plist P w)) plist_path = Some out
       /\ load P out = inr (VDict d2)
       /\ forall k,
            option_map canon (dict_get k d2) = option_map canon (dict_get k d).
Proof.
  intros Hfs Hr Hw Hl Hc Hd Hfit Hback Hsame.
  assert (Hm : without_manifest (VDict d) = inr (VDict d)).
  { unfold without_manifest. simpl. now rewrite Hc. }
  assert (Hrun : update_info_plist P w
    = (Return true,
       {| fs := <[plist_path := RegFile out p]> (fs w);
          disk_free := disk_free w + length content - length out;
          stdout := stdout w ++ [msg_already_removed; msg_success] |})).
  { rewrite (run_write P w content p _ _ Hfs Hr Hl Hm).
    unfold write_phase, note_for. simpl. rewrite Hw, Hc, Hd. simpl.
    apply Nat.leb_le in Hfit as Hfit'. simpl in Hfit'. rewrite Hfit'.
    rewrite store_printed, printed_printed, store_fits by exact Hfit.
    reflexivity. }
  split; [exact Hrun|]. split; [exact Hm|split].
  - intros e. unfold msg_error, msg_already_removed, msg_success.
    split; simpl; discriminate.
  - destruct (canon_dict_inv v2 _ Hsame) as (d2 & ->).
    exists d2. split; [|split; [exact Hback|]].
    + rewrite Hrun. unfold file_content. simpl.
      now rewrite lookup_insert_eq.
    + intros k. exact (canon_dict_get k _ _ Hsame).
Qed.

Lemma absent_key_kept_witness :
  update_info_plist RefPlist.plistlib
    (Samples.world_of Samples.no_manifest Samples.rw 4096)
  = (Return true,
     {| fs := <[plist_path := RegFile Samples.trimmed_xml Samples.rw]>
                (fs (Samples.world_of Samples.no_manifest Samples.rw 4096));
        disk_free := 4096 + length Samples.no_manifest
                     - length Samples.trimmed_xml;
        stdout := [] ++ [msg_already_removed; msg_success] |})
  /\ without_manifest (VDict Samples.plain_doc) = inr (VDict Samples.plain_doc)
  /\ (forall e, msg_error e <> msg_already_removed
                /\ msg_error e <> msg_success)
  /\ exists d2,
       file_content
         (snd (update_info_plist RefPlist.plistlib
                 (Samples.world_of Samples.no_manifest Samples.rw 4096)))
         plist_path
       = Some Samples.trimmed_xml
       /\ load RefPlist.plistlib Samples.trimmed_xml = inr (VDict d2)
       /\ forall k,
            option_map canon (dict_get k d2)
            = option_map canon (dict_get k Samples.plain_doc).
Proof.
  apply (absent_key_kept RefPlist.plistlib
           (Samples.world_of Samples.no_manifest Samples.rw 4096)
           Samples.no_manifest Samples.trimmed_xml Samples.rw
           Samples.plain_doc (VDict Samples.plain_doc)).
  - vm_compute. reflexivity.
  - reflexivity.
  - reflexivity.
  - vm_compute. reflexivity.
  - vm_compute. reflexivity.
  - vm_compute. reflexivity.
  - apply Nat.leb_le. vm_compute. reflexivity.
  - vm_compute. reflexivity.
  - vm_compute. reflexivity.
Defined.

(** The run that follows a successful run, when [plistlib] writes the
    same for an object and for its sorted form and loads from the bytes
    written for [v1] the object [v1], up to the order of the keys. *)
Lemma rerun_after_success (P : Plistlib) (w w1 : world)
    (content : list byte) (p : perms) (v v1 v2 : value) :
  (forall x, dump P (canon x) = dump P x) ->
  update_info_plist P w = (Return true, w1) ->
  fs w !! plist_path = Some (RegFile content p) ->
  load P content = inr v ->
  without_manifest v = inr v1 ->
  load P (fst (dump P v1)) = inr v2 ->
  canon v2 = canon v1 ->
  update_info_plist P w1
  = (Return true, printed [msg_already_removed; msg_success] w1)
  /\ file_content w1 plist_path = Some (fst (dump P v1)).
Proof.
  intros Hsort Hrun Hfs Hl Hm Hback Hcanon.
  destruct (run_true P w w1 Hrun)
    as (content' & p' & v' & v1' & Hfs' & Hr & Hw & Hl' & Hm' & He & Hfit
        & ->).
  rewrite Hfs in Hfs'. injection Hfs' as <- <-.
  rewrite Hl in Hl'. injection Hl' as <-.
  rewrite Hm in Hm'. injection Hm' as <-.
  set (out := fst (dump P v1)) in *.
  rewrite store_fits by exact Hfit.
  set (w1 := printed _ _).
  assert (Hfs1 : fs w1 !! plist_path = Some (RegFile out p)).
  { subst w1. simpl. apply lookup_insert_eq. }
  assert (Habs : py_contains target_key v2 = inr false).
  { rewrite <- py_contains_canon, Hcanon, py_contains_canon.
    exact (without_manifest_absent _ _ Hm). }
  assert (Hsame : dump P v2 = dump P v1).
  { now rewrite <- (Hsort v2), Hcanon, Hsort. }
  assert (Hm2 : without_manifest v2 = inr v2).
  { unfold without_manifest. now rewrite Habs. }
  assert (Hrun1 : update_info_plist P w1
    = (Return true, printed [msg_already_removed; msg_success] w1)).
  { rewrite (run_write P w1 out p v2 v2 Hfs1 Hr Hback Hm2).
    unfold write_phase, note_for.
    rewrite Habs, Hw, Hsame, He.
    fold out.
    assert (Hfit1 : (length out <=? disk_free (printed [msg_already_removed] w1)
                                    + length out)%nat = true).
    { apply Nat.leb_le. lia. }
    rewrite Hfit1, store_printed, printed_printed.
    rewrite store_fits by (apply Nat.leb_le in Hfit1; exact Hfit1).
    unfold printed. simpl. f_equal. f_equal.
    - apply insert_insert_eq.
    - lia. }
  split; [exact Hrun1|].
  unfold file_content. now rewrite Hfs1.
Qed.

(** C3, as stated, fails: [Samples.cr_lf_keys] holds the two keys [a],
    carriage return, and [a], line feed.  The first run succeeds and
    writes both under the key [a], line feed, a carriage return being
    written as a line feed; the second run loads one item from that,
    succeeds, and leaves a shorter file. *)
Lemma second_run_may_change_file :
  ~ (forall (P : Plistlib) (w w1 : world),
       update_info_plist P w = (Return true, w1) ->
       fst (update_info_plist P w1) = Return true
       /\ file_content (snd (update_info_plist P w1)) plist_path
          = file_content w1 plist_path).
Proof.
  intros H.
  destruct (H RefPlist.plistlib
              (Samples.world_of Samples.cr_lf_keys Samples.rw 4096)
              (snd (update_info_plist RefPlist.plistlib
                      (Samples.world_of Samples.cr_lf_keys Samples.rw 4096))))
    as [_ Hsame].
  - vm_compute. reflexivity.
  - apply (f_equal (option_map (@length byte))) in Hsame.
    vm_compute in Hsame. discriminate Hsame.
Qed.

(** C3, amended.  Idempotence, for a [plistlib] that writes the same for
    an object whatever the order of the keys of its dictionaries (its
    [dump] sorts them).  Take a first run that succeeds, [v1] being the
    object it wrote, and let [plistlib] load from the bytes written for
    [v1] an object that is [v1] up to the order of the keys.  Then a
    second run prints that the key was not found and the success, returns
    [True], and leaves the file system and the free space as the first
    run left them: the file has the same content. *)
Theorem second_run_stable (P : Plistlib) (w w1 : world)
    (content : list byte) (p : perms) (v v1 v2 : value) :
  (forall x, dump P (canon x) = dump P x) ->
  update_info_plist P w = (Return true, w1) ->
  fs w !! plist_path = Some (RegFile content p) ->
  load P content = inr v ->
  without_manifest v = inr v1 ->
  load P (fst (dump P v1)) = inr v2 ->
  canon v2 = canon v1 ->
  update_info_plist P w1
  = (Return true, printed [msg_already_removed; msg_success] w1)
  /\ fs (snd (update_info_plist P w1)) = fs w1
  /\ disk_free (snd (update_info_plist P w1)) = disk_free w1
  /\ file_content w1 plist_path = Some (fst (dump P v1)).
Proof.
  intros Hsort Hrun Hfs Hl Hm Hback Hcanon.
  destruct (rerun_after_success P w w1 content p v v1 v2 Hsort Hrun Hfs Hl
              Hm Hback Hcanon) as [Hrun1 Hcontent].
  split; [exact Hrun1|].
  rewrite Hrun1. simpl.
  split; [reflexivity|]. split; [reflexivity | exact Hcontent].
Qed.

Lemma second_run_stable_witness :
  let w1 := snd (update_info_plist RefPlist.plistlib
                   (Samples.world_of Samples.with_manifest Samples.rw 4096)) in
  update_info_plist RefPlist.plistlib w1
  = (Return true, printed [msg_already_removed; msg_success] w1)
  /\ fs (snd (update_info_plist RefPlist.plistlib w1)) = fs w1
  /\ disk_free (snd (update_info_plist RefPlist.plistlib w1)) = disk_free w1
  /\ file_content w1 plist_path
     = Some (fst (dump RefPlist.plistlib (VDict Samples.trimmed_doc))).
Proof.
  intros w1.
  apply (second_run_stable RefPlist.plistlib
           (Samples.world_of Samples.with_manifest Samples.rw 4096) w1
           Samples.with_manifest Samples.rw
           (VDict Samples.manifest_doc) (VDict Samples.trimmed_doc)
           (VDict Samples.plain_doc)).
  - exact ref_dump_canon.
  - vm_compute. reflexivity.
  - vm_compute. reflexivity.
  - vm_compute. reflexivity.
  - vm_compute. reflexivity.
  - vm_compute. reflexivity.
  - vm_compute. reflexivity.
Defined.


(** C4.  When nothing exists at the path, the run prints the line of
    line 15 and returns [False] whatever [plistlib] would do (it is not
    called), that line is no report of the [except] clause, and the file
    system is as it was: there is still nothing at the path. *)
Theorem missing_file_not_found (P : Plistlib) (w : world) :
  fs w !! plist_path = None ->
  update_info_plist P w = (Return false, printed [msg_not_found] w)
  /\ (forall Q : Plistlib, update_info_plist Q w = update_info_plist P w)
  /\ (forall e, msg_not_found <> msg_error e)
  /\ fs (snd (update_info_plist P w)) = fs w
  /\ fs (snd (update_info_plist P w)) !! plist_path = None.
Proof.
  intros Hfs. rewrite (run_not_found P w Hfs).
  split; [reflexivity|]. split.
  - intros Q. apply run_not_found. exact Hfs.
  - split; [exact msg_not_found_distinct|]. split; [reflexivity | exact Hfs].
Qed.

Lemma missing_file_not_found_witness :
  update_info_plist RefPlist.plistlib Samples.other_world
  = (Return false, printed [msg_not_found] Samples.other_world)
  /\ (forall Q : Plistlib,
        update_info_plist Q Samples.other_world
        = update_info_plist RefPlist.plistlib Samples.other_world)
  /\ (forall e, msg_not_found <> msg_error e)
  /\ fs (snd (update_info_plist RefPlist.plistlib Samples.other_world))
     = fs Samples.other_world
  /\ fs (snd (update_info_plist RefPlist.plistlib Samples.other_world))
       !! plist_path = None.
Proof.
  apply (missing_file_not_found RefPlist.plistlib Samples.other_world).
  vm_compute. reflexivity.
Defined.

(** C5.  A readable file that [plistlib.load] rejects with [e]: the run
    prints the report of [e] and returns [False]; the file system and the
    free space are as they were, so the file keeps its content. *)
Theorem malformed_content_untouched (P : Plistlib) (w : world)
    (content : list byte) (p : perms) (e : exn) :
  fs w !! plist_path = Some (RegFile content p) ->
  readable p = true ->
  load P content = inl e ->
  update_info_plist P w = (Return false, printed [msg_error e] w)
  /\ fs (snd (update_info_plist P w)) = fs w
  /\ file_content (snd (update_info_plist P w)) plist_path = Some content.
Proof.
  intros Hfs Hr Hl. rewrite (run_load_error P w content p e Hfs Hr Hl).
  split; [reflexivity|]. split; [reflexivity|].
  unfold file_content. simpl. now rewrite Hfs.
Qed.

Lemma malformed_content_untouched_witness :
  let w := Samples.world_of Samples.garbage Samples.rw 4096 in
  update_info_plist RefPlist.plistlib w
  = (Return false,
     printed [msg_error (Exn InvalidFileException "Invalid file")] w)
  /\ fs (snd (update_info_plist RefPlist.plistlib w)) = fs w
  /\ file_content (snd (update_info_plist RefPlist.plistlib w)) plist_path
     = Some Samples.garbage.
Proof.
  intros w.
  apply (malformed_content_untouched RefPlist.plistlib w Samples.garbage
           Samples.rw (Exn InvalidFileException "Invalid file")).
  - vm_compute. reflexivity.
  - reflexivity.
  - vm_compute. reflexivity.
Defined.

(** A run changes nothing but the node at [plist_path]. *)
Lemma write_phase_frame (P : Plistlib) (v1 : value) (old : list byte)
    (p : perms) (w : world) (path : string) :
  path <> plist_path ->
  fs (snd (write_phase P v1 old p w)) !! path = fs w !! path.
Proof.
  intros Hne. unfold write_phase.
  destruct (writable p); [|reflexivity].
  destruct (_ <=? _)%nat; [destruct (snd (dump P v1))|];
    simpl; now rewrite lookup_insert_ne.
Qed.

Lemma run_frame (P : Plistlib) (w : world) (path : string) :
  path <> plist_path ->
  fs (snd (update_info_plist P w)) !! path = fs w !! path.
Proof.
  intros Hne.
  destruct (run_cases P w) as [[_ H]|[(e & _ & H)|H]];
    [rewrite H; reflexivity .. |].
  destruct H as (content & p & v & v1 & _ & _ & _ & _ & H).
  rewrite H. now rewrite write_phase_frame.
Qed.

(** [RefPlist.dump] starts with the XML header, whatever it is given. *)
Lemma ref_dump_is_xml (v : value) :
  detect_format (fst (RefPlist.dump v)) = Some FMT_XML.
Proof.
  unfold RefPlist.dump, RefPlist.write_plist.
  change (RefPlist.wr_all (?a :: ?l))
    with (RefPlist.wr_then a (RefPlist.wr_all l)).
  destruct (RefPlist.wr_all _) as [s e].
  unfold RefPlist.wr_then. simpl snd. cbv iota. simpl fst.
  vm_compute. reflexivity.
Qed.

(** C6, as stated, fails: the property list [Samples.big_integer] loads,
    the file is opened for writing, [plistlib.dump] raises [OverflowError]
    at the integer, the run returns [False], and the file holds the
    beginning of the new serialization instead of its content. *)
Lemma failed_write_changes_file :
  ~ (forall (P : Plistlib) (w w' : world),
       update_info_plist P w = (Return false, w') ->
       file_content w' plist_path = file_content w plist_path).
Proof.
  intros H.
  specialize (H RefPlist.plistlib
                (Samples.world_of Samples.big_integer Samples.rw 4096)
                (snd (update_info_plist RefPlist.plistlib
                   (Samples.world_of Samples.big_integer Samples.rw 4096)))).
  assert (Hrun : fst (update_info_plist RefPlist.plistlib
                   (Samples.world_of Samples.big_integer Samples.rw 4096))
                 = Return false) by (vm_compute; reflexivity).
  rewrite <- Hrun in H. rewrite <- surjective_pairing in H.
  specialize (H eq_refl).
  apply (f_equal (option_map (@length byte))) in H.
  vm_compute in H. discriminate H.
Qed.

(** The same happens on a device that cannot take the new bytes. *)
Example full_device_truncates :
  let w := Samples.world_of Samples.no_manifest Samples.rw 10 in
  fst (update_info_plist RefPlist.plistlib w) = Return false
  /\ option_map (@length byte)
       (file_content (snd (update_info_plist RefPlist.plistlib w)) plist_path)
     = Some (10 + length Samples.no_manifest)
  /\ file_content (snd (update_info_plist RefPlist.plistlib w)) plist_path
     <> Some Samples.no_manifest.
Proof.
  intros w. split; [vm_compute; reflexivity|].
  split; [vm_compute; reflexivity|].
  intros H. apply (f_equal (option_map (@length byte))) in H.
  vm_compute in H. discriminate H.
Qed.

(** C6, amended.  A run that returns [False] without having opened the
    file for writing leaves the file system as it was: nothing at the
    path, a file that cannot be read, a content [plistlib.load] rejects,
    an object on which lines 24 and 25 raise, a file that cannot be
    written.  A run that returns [False] after it opened the file for
    writing has failed in [plistlib.dump] or for want of room, and the
    file holds, instead of its content, what the device took of the
    bytes written before the failure. *)
Theorem failure_keeps_file_until_write (P : Plistlib) (w w' : world) :
  update_info_plist P w = (Return false, w') ->
  ((forall content p v1, ~ opened_for_writing P w content p v1) ->
   fs w' = fs w)
  /\ (forall content p v1,
        opened_for_writing P w content p v1 ->
        (snd (dump P v1) <> None
         \/ disk_free w + length content < length (fst (dump P v1)))
        /\ fs w'
           = <[plist_path :=
                 RegFile (firstn (disk_free w + length content)
                                 (fst (dump P v1))) p]> (fs w)).
Proof.
  intros Hrun. split.
  - intros Hnot.
    destruct (run_cases P w) as [[_ H]|[(e & _ & H)|H]].
    + rewrite H in Hrun. now injection Hrun as <-.
    + rewrite H in Hrun. now injection Hrun as <-.
    + destruct H as (content & p & v & v1 & Hfs & Hr & Hl & Hm & H).
      rewrite H in Hrun. apply write_phase_false in Hrun.
      destruct Hrun as [[_ Hsame]|(Hw & _ & _)]; [exact Hsame|].
      destruct (Hnot content p v1). exists v. auto.
  - intros content p v1 (v & Hfs & Hr & Hw & Hl & Hm).
    rewrite (run_write P w content p v v1 Hfs Hr Hl Hm) in Hrun.
    apply write_phase_false in Hrun.
    destruct Hrun as [[Hw' _]|(_ & Hwhy & Hnew)]; [congruence|].
    split; assumption.
Qed.

Lemma failure_keeps_file_until_write_witness :
  let w := Samples.world_of Samples.big_integer Samples.rw 4096 in
  let v1 := VDict [("CFBundleName", VStr "Silento");
                   ("Build", VInt 18446744073709551616)] in
  (snd (dump RefPlist.plistlib v1) <> None
   \/ disk_free w + length Samples.big_integer
      < length (fst (dump RefPlist.plistlib v1)))
  /\ fs (snd (update_info_plist RefPlist.plistlib w))
     = <[plist_path :=
           RegFile (firstn (disk_free w + length Samples.big_integer)
                           (fst (dump RefPlist.plistlib v1))) Samples.rw]>
         (fs w).
Proof.
  intros w v1.
  apply (proj2 (failure_keeps_file_until_write RefPlist.plistlib w
                  (snd (update_info_plist RefPlist.plistlib w))
                  ltac:(vm_compute; reflexivity))
               Samples.big_integer Samples.rw v1).
  exists v1. repeat split; vm_compute; reflexivity.
Defined.

(** C7, as stated, fails: [Samples.binary_plist] is a binary property
    list, the run succeeds, and the file written starts with the XML
    header. *)
Lemma binary_input_written_as_xml :
  ~ (forall (P : Plistlib) (w w' : world) (content : list byte) (p : perms)
            (fmt : PlistFormat),
       fs w !! plist_path = Some (RegFile content p) ->
       detect_format content = Some fmt ->
       update_info_plist P w = (Return true, w') ->
       exists out,
         file_content w' plist_path = Some out /\
         detect_format out = Some fmt).
Proof.
  intros H.
  destruct (H RefPlist.plistlib
              (Samples.world_of Samples.binary_plist Samples.rw 4096)
              (snd (update_info_plist RefPlist.plistlib
                 (Samples.world_of Samples.binary_plist Samples.rw 4096)))
              Samples.binary_plist Samples.rw FMT_BINARY)
    as (out & Hout & Hfmt).
  - vm_compute. reflexivity.
  - vm_compute. reflexivity.
  - vm_compute. reflexivity.
  - vm_compute in Hout. injection Hout as <-.
    vm_compute in Hfmt. discriminate Hfmt.
Qed.

(** C7, amended.  [plistlib.dump] is called without [fmt], so with a
    [plistlib] whose [dump] writes XML, which is what the default
    [FMT_XML] means, every successful run leaves an XML property list at
    the path, whatever the format of the file it loaded. *)
Theorem written_as_xml (P : Plistlib) (w w' : world) :
  (forall v, detect_format (fst (dump P v)) = Some FMT_XML) ->
  update_info_plist P w = (Return true, w') ->
  exists v1 out,
    dump P v1 = (out, None) /\
    file_content w' plist_path = Some out /\
    detect_format out = Some FMT_XML.
Proof.
  intros Hxml Hrun.
  destruct (run_true P w w' Hrun)
    as (content & p & v & v1 & Hfs & Hr & Hw & Hl & Hm & He & Hfit & ->).
  exists v1, (fst (dump P v1)). split; [|split].
  - rewrite <- He. apply surjective_pairing.
  - rewrite store_fits by exact Hfit. unfold file_content. simpl.
    now rewrite lookup_insert_eq.
  - apply Hxml.
Qed.

Lemma written_as_xml_witness :
  let w := Samples.world_of Samples.binary_plist Samples.rw 4096 in
  exists v1 out,
    dump RefPlist.plistlib v1 = (out, None) /\
    file_content (snd (update_info_plist RefPlist.plistlib w)) plist_path
    = Some out /\
    detect_format out = Some FMT_XML.
Proof.
  intros w.
  apply (written_as_xml RefPlist.plistlib w
           (snd (update_info_plist RefPlist.plistlib w))).
  - exact ref_dump_is_xml.
  - vm_compute. reflexivity.
Defined.

(** C8.  Every successful run replaces the content of the file by the
    serialization of the object that reached the write phase; when the
    key was absent this object is the loaded one, and the file is written
    all the same. *)
Theorem success_overwrites (P : Plistlib) (w w' : world) :
  update_info_plist P w = (Return true, w') ->
  exists content p v v1,
    fs w !! plist_path = Some (RegFile content p) /\
    load P content = inr v /\
    without_manifest v = inr v1 /\
    (py_contains target_key v = inr false -> v1 = v) /\
    fs w' = <[plist_path := RegFile (fst (dump P v1)) p]> (fs w).
Proof.
  intros Hrun.
  destruct (run_true P w w' Hrun)
    as (content & p & v & v1 & Hfs & Hr & Hw & Hl & Hm & He & Hfit & ->).
  exists content, p, v, v1. repeat split; try assumption.
  - intros Hc. unfold without_manifest in Hm. rewrite Hc in Hm.
    now injection Hm.
  - now rewrite store_fits by exact Hfit.
Qed.

Lemma success_overwrites_witness :
  let w := Samples.world_of Samples.no_manifest Samples.rw 4096 in
  exists content p v v1,
    fs w !! plist_path = Some (RegFile content p) /\
    load RefPlist.plistlib content = inr v /\
    without_manifest v = inr v1 /\
    (py_contains target_key v = inr false -> v1 = v) /\
    fs (snd (update_info_plist RefPlist.plistlib w))
    = <[plist_path := RegFile (fst (dump RefPlist.plistlib v1)) p]> (fs w).
Proof.
  intros w.
  apply (success_overwrites RefPlist.plistlib w
           (snd (update_info_plist RefPlist.plistlib w))).
  vm_compute. reflexivity.
Defined.

(** With the key absent the bytes may change all the same: the run
    replaces the one-line [Samples.no_manifest] by the indented text
    [plistlib.dump] writes. *)
Example absent_key_rewrites_bytes :
  let w := Samples.world_of Samples.no_manifest Samples.rw 4096 in
  file_content (snd (update_info_plist RefPlist.plistlib w)) plist_path
  = Some Samples.plain_xml
  /\ Samples.plain_xml <> Samples.no_manifest.
Proof.
  intros w. split; [vm_compute; reflexivity|].
  intros H. apply (f_equal (@length byte)) in H.
  vm_compute in H. discriminate H.
Qed.

(** Each failure of the three phases is reported by the [except] clause
    and answered by [False]. *)
Lemma failures_are_reported (P : Plistlib) (w : world)
    (content : list byte) (p : perms) :
  fs w !! plist_path = Some (RegFile content p) ->
  (readable p = false ->
   update_info_plist P w
   = (Return false, printed [msg_error permission_denied] w))
  /\ (forall e, readable p = true -> load P content = inl e ->
      update_info_plist P w = (Return false, printed [msg_error e] w))
  /\ (forall v v1 e, readable p = true -> writable p = true ->
      load P content = inr v -> without_manifest v = inr v1 ->
      snd (dump P v1) = Some e ->
      length (fst (dump P v1)) <= disk_free w + length content ->
      fst (update_info_plist P w) = Return false
      /\ stdout (snd (update_info_plist P w))
         = (stdout w ++ [note_for v; msg_error e])%list).
Proof.
  intros Hfs. split; [|split].
  - intros Hr. now apply (run_unreadable P w content p).
  - intros e Hr Hl. now apply (run_load_error P w content p).
  - intros v v1 e Hr Hw Hl Hm He Hfit.
    rewrite (run_write P w content p v v1 Hfs Hr Hl Hm).
    unfold write_phase. rewrite Hw, He.
    apply Nat.leb_le in Hfit. simpl in *. rewrite Hfit. simpl.
    split; [reflexivity|]. now rewrite <- app_assoc.
Qed.

(** C10, as stated, fails: the script takes no argument.  In a project
    whose property list is [Samples.other_path], asking for the removal of
    [Samples.other_key] there changes nothing in that file: the run looks
    at [Silento/Info.plist], finds nothing, and returns [False]. *)
Lemma path_and_key_are_fixed :
  ~ (forall (P : Plistlib) (path key : string) (w : world)
            (content : list byte) (p : perms) (d : list (string * value)),
       key <> EmptyString ->
       fs w !! path = Some (RegFile content p) ->
       readable p = true ->
       writable p = true ->
       load P content = inr (VDict d) ->
       dict_contains key d = true ->
       snd (dump P (VDict (dict_delitem key d))) = None ->
       length (fst (dump P (VDict (dict_delitem key d))))
       <= disk_free w + length content ->
       file_content (snd (update_info_plist P w)) path
       = Some (fst (dump P (VDict (dict_delitem key d))))).
Proof.
  intros H.
  specialize (H RefPlist.plistlib Samples.other_path Samples.other_key
                Samples.other_world Samples.no_manifest Samples.rw
                Samples.plain_doc).
  assert (Hc : file_content
                 (snd (update_info_plist RefPlist.plistlib
                         Samples.other_world)) Samples.other_path
               = Some Samples.no_manifest) by (vm_compute; reflexivity).
  rewrite Hc in H.
  assert (Hlen : option_map (@length byte) (Some Samples.no_manifest)
                 <> option_map (@length byte)
                      (Some (fst (dump RefPlist.plistlib
                         (VDict (dict_delitem Samples.other_key
                                              Samples.plain_doc))))))
    by (vm_compute; discriminate).
  apply Hlen. f_equal. apply H.
  - discriminate.
  - vm_compute. reflexivity.
  - reflexivity.
  - reflexivity.
  - vm_compute. reflexivity.
  - vm_compute. reflexivity.
  - vm_compute. reflexivity.
  - apply Nat.leb_le. vm_compute. reflexivity.
Qed.

(** C10, amended.  The script works on the built-in path
    [Silento/Info.plist] and the built-in key
    [UIApplicationSceneManifest]: a run leaves what any other path names
    as it was, and a successful run has loaded the file at the built-in
    path and left there the serialization of its object without the
    built-in key. *)
Theorem fixed_path_and_key (P : Plistlib) (w : world) (path : string) :
  path <> plist_path ->
  fs (snd (update_info_plist P w)) !! path = fs w !! path
  /\ (fst (update_info_plist P w) = Return true ->
      exists content p v v1,
        fs w !! plist_path = Some (RegFile content p) /\
        load P content = inr v /\
        without_manifest v = inr v1 /\
        py_contains target_key v1 = inr false /\
        file_content (snd (update_info_plist P w)) plist_path
        = Some (fst (dump P v1))).
Proof.
  intros Hne. split; [now apply run_frame|].
  intros Hok.
  assert (Hrun : update_info_plist P w
                 = (Return true, snd (update_info_plist P w))).
  { rewrite <- Hok. apply surjective_pairing. }
  destruct (run_true P w _ Hrun)
    as (content & p & v & v1 & Hfs & Hr & Hw & Hl & Hm & He & Hfit & Hw').
  exists content, p, v, v1. repeat split; try assumption.
  - exact (without_manifest_absent _ _ Hm).
  - rewrite Hw', store_fits by exact Hfit. unfold file_content. simpl.
    now rewrite lookup_insert_eq.
Qed.

Lemma fixed_path_and_key_witness :
  let w := Samples.other_world in
  fs (snd (update_info_plist RefPlist.plistlib w)) !! Samples.other_path
  = fs w !! Samples.other_path
  /\ (fst (update_info_plist RefPlist.plistlib w) = Return true ->
      exists content p v v1,
        fs w !! plist_path = Some (RegFile content p) /\
        load RefPlist.plistlib content = inr v /\
        without_manifest v = inr v1 /\
        py_contains target_key v1 = inr false /\
        file_content (snd (update_info_plist RefPlist.plistlib w)) plist_path
        = Some (fst (dump RefPlist.plistlib v1))).
Proof.
  intros w.
  apply (fixed_path_and_key RefPlist.plistlib w Samples.other_path).
  vm_compute. discriminate.
Defined.

(** * Further properties of the script *)

Lemma run_is_a_directory (P : Plistlib) (w : world) :
  fs w !! plist_path = Some Directory ->
  update_info_plist P w = (Return false, printed [msg_error is_a_directory] w).
Proof.
  intros H. unfold update_info_plist, bind.
  rewrite (exists_true w _ H). simpl.
  unfold try_except, bind, with_open_rb. rewrite H. reflexivity.
Qed.

(** X1.  When the path names something [open(path, 'rb')] refuses, a
    directory or a file the process may not read, line 14 lets the run
    go on, line 20 raises, and the [except] clause answers: the run
    prints the report of an [IsADirectoryError] or a [PermissionError]
    and not the line of line 15, returns [False], calls [plistlib] for
    nothing, and changes nothing. *)
Theorem unopenable_path_is_reported (P : Plistlib) (w : world) (n : node) :
  fs w !! plist_path = Some n ->
  refuses_reading n = true ->
  exists e,
    (exn_type e = IsADirectoryError \/ exn_type e = PermissionError)
    /\ update_info_plist P w = (Return false, printed [msg_error e] w)
    /\ msg_error e <> msg_not_found
    /\ (forall Q : Plistlib, update_info_plist Q w = update_info_plist P w).
Proof.
  intros Hfs Hn. destruct n as [content p|]; simpl in Hn.
  - apply negb_true_iff in Hn. exists permission_denied.
    split; [right; reflexivity|].
    rewrite (run_unreadable P w content p Hfs Hn).
    split; [reflexivity|]. split.
    + intros H. now apply (msg_not_found_distinct permission_denied).
    + intros Q. now apply run_unreadable with content p.
  - exists is_a_directory. split; [left; reflexivity|].
    rewrite (run_is_a_directory P w Hfs).
    split; [reflexivity|]. split.
    + intros H. now apply (msg_not_found_distinct is_a_directory).
    + intros Q. now apply run_is_a_directory.
Qed.

Lemma unopenable_path_is_reported_witness :
  exists e,
    (exn_type e = IsADirectoryError \/ exn_type e = PermissionError)
    /\ update_info_plist RefPlist.plistlib Samples.directory_world
       = (Return false, printed [msg_error e] Samples.directory_world)
    /\ msg_error e <> msg_not_found
    /\ (forall Q : Plistlib,
          update_info_plist Q Samples.directory_world
          = update_info_plist RefPlist.plistlib Samples.directory_world).
Proof.
  apply (unopenable_path_is_reported RefPlist.plistlib
           Samples.directory_world Directory).
  - vm_compute. reflexivity.
  - reflexivity.
Defined.

(** X2.  A property list whose root is no dictionary and on which the
    test of line 24 does not answer [False] (a list with the key among
    its elements, a string with the key inside, or an object [in] does
    not apply to) makes line 24 or line 25 raise [TypeError]: the run
    prints its report alone, returns [False], and the file is not opened
    for writing. *)
Theorem non_dict_root_fails (P : Plistlib) (w : world)
    (content : list byte) (p : perms) (v : value) :
  fs w !! plist_path = Some (RegFile content p) ->
  readable p = true ->
  load P content = inr v ->
  (forall d, v <> VDict d) ->
  py_contains "UIApplicationSceneManifest" v <> inr false ->
  exists e,
    exn_type e = TypeError
    /\ update_info_plist P w = (Return false, printed [msg_error e] w).
Proof.
  intros Hfs Hr Hl Hnd Hc.
  assert (Hm : exists e, exn_type e = TypeError
                         /\ without_manifest v = inl e).
  { unfold without_manifest, target_key.
    destruct v as [|s|n|b|l|d]; simpl in *;
      try (eexists; split; [|reflexivity]; reflexivity).
    - destruct (str_contains _ s); [|contradiction].
      eexists; split; [|reflexivity]; reflexivity.
    - destruct (existsb _ l); [|contradiction].
      eexists; split; [|reflexivity]; reflexivity.
    - now destruct (Hnd d). }
  destruct Hm as (e & He & Hm). exists e. split; [exact He|].
  now apply (run_object_error P w content p v).
Qed.

Lemma non_dict_root_fails_witness :
  let w := Samples.world_of Samples.root_array Samples.rw 4096 in
  exists e,
    exn_type e = TypeError
    /\ update_info_plist RefPlist.plistlib w
       = (Return false, printed [msg_error e] w).
Proof.
  intros w.
  apply (non_dict_root_fails RefPlist.plistlib w Samples.root_array
           Samples.rw
           (VList [VStr "UIApplicationSceneManifest"; VStr "CFBundleName"])).
  - vm_compute. reflexivity.
  - reflexivity.
  - vm_compute. reflexivity.
  - intros d. discriminate.
  - vm_compute. discriminate.
Defined.

(** X3.  A file the process may read but not write, holding a dictionary
    with the key: line 25 removes the key in memory and line 26 prints
    the removal, then line 31 raises [PermissionError]; the run prints
    its report, returns [False], and the file keeps its content, the
    key included. *)
Theorem read_only_file_keeps_key (P : Plistlib) (w : world)
    (content : list byte) (p : perms) (d : list (string * value)) :
  fs w !! plist_path = Some (RegFile content p) ->
  readable p = true ->
  writable p = false ->
  load P content = inr (VDict d) ->
  dict_contains "UIApplicationSceneManifest" d = true ->
  update_info_plist P w
  = (Return false, printed [msg_removed; msg_error permission_denied] w)
  /\ file_content (snd (update_info_plist P w)) plist_path = Some content.
Proof.
  intros Hfs Hr Hw Hl Hc.
  assert (Hm : without_manifest (VDict d)
               = inr (VDict (dict_delitem target_key d))).
  { unfold without_manifest, target_key. simpl. now rewrite Hc. }
  rewrite (run_write P w content p _ _ Hfs Hr Hl Hm).
  unfold write_phase, note_for, target_key. simpl. rewrite Hw, Hc.
  rewrite printed_printed. split; [reflexivity|].
  unfold file_content. simpl. now rewrite Hfs.
Qed.

Lemma read_only_file_keeps_key_witness :
  let w := Samples.world_of Samples.with_manifest (Perms true false) 4096 in
  update_info_plist RefPlist.plistlib w
  = (Return false, printed [msg_removed; msg_error permission_denied] w)
  /\ file_content (snd (update_info_plist RefPlist.plistlib w)) plist_path
     = Some Samples.with_manifest.
Proof.
  intros w.
  apply (read_only_file_keeps_key RefPlist.plistlib w Samples.with_manifest
           (Perms true false) Samples.manifest_doc).
  - vm_compute. reflexivity.
  - reflexivity.
  - reflexivity.
  - vm_compute. reflexivity.
  - vm_compute. reflexivity.
Defined.

(** X4.  When [plistlib.dump] raises [e] on the object of a dictionary
    file after writing [emitted], bytes the device takes: the note of
    line 26 or line 28 is printed already, the report of [e] follows, the
    run returns [False], and the file holds [emitted] in place of its
    content. *)
Theorem serializer_failure_leaves_partial_file (P : Plistlib) (w : world)
    (content emitted : list byte) (p : perms) (d : list (string * value))
    (e : exn) :
  fs w !! plist_path = Some (RegFile content p) ->
  readable p = true ->
  writable p = true ->
  load P content = inr (VDict d) ->
  dump P (VDict (dict_delitem "UIApplicationSceneManifest" d))
  = (emitted, Some e) ->
  length emitted <= disk_free w + length content ->
  update_info_plist P w
  = (Return false,
     {| fs := <[plist_path := RegFile emitted p]> (fs w);
        disk_free := disk_free w + length content - length emitted;
        stdout := stdout w
                  ++ [if dict_contains "UIApplicationSceneManifest" d
                      then msg_removed else msg_already_removed;
                      msg_error e] |}).
Proof.
  intros Hfs Hr Hw Hl Hd Hfit.
  assert (Hm : without_manifest (VDict d)
               = inr (VDict (dict_delitem target_key d))).
  { unfold without_manifest, target_key. simpl.
    destruct (dict_contains _ d) eqn:Hc; [reflexivity|].
    now rewrite (dict_delitem_id _ d Hc). }
  rewrite (run_write P w content p _ _ Hfs Hr Hl Hm).
  unfold write_phase, note_for, target_key. simpl. rewrite Hw, Hd. simpl.
  apply Nat.leb_le in Hfit as Hfit'. simpl in Hfit'. rewrite Hfit'.
  rewrite store_printed, printed_printed, store_fits by exact Hfit.
  unfold printed. simpl. now destruct (dict_contains _ d).
Qed.

Lemma serializer_failure_leaves_partial_file_witness :
  let w := Samples.world_of Samples.big_integer Samples.rw 4096 in
  let emitted :=
    fst (dump RefPlist.plistlib
           (VDict [("CFBundleName", VStr "Silento");
                   ("Build", VInt 18446744073709551616)])) in
  update_info_plist RefPlist.plistlib w
  = (Return false,
     {| fs := <[plist_path := RegFile emitted Samples.rw]> (fs w);
        disk_free := disk_free w + length Samples.big_integer
                     - length emitted;
        stdout := stdout w
                  ++ [if dict_contains "UIApplicationSceneManifest"
                           [("CFBundleName", VStr "Silento");
                            ("Build", VInt 18446744073709551616)]
                      then msg_removed else msg_already_removed;
                      msg_error (Exn OverflowError "18446744073709551616")]
     |}).
Proof.
  intros w emitted.
  apply (serializer_failure_leaves_partial_file RefPlist.plistlib w
           Samples.big_integer emitted Samples.rw
           [("CFBundleName", VStr "Silento");
            ("Build", VInt 18446744073709551616)]
           (Exn OverflowError "18446744073709551616")).
  - vm_compute. reflexivity.
  - reflexivity.
  - reflexivity.
  - vm_compute. reflexivity.
  - vm_compute. reflexivity.
  - apply Nat.leb_le. vm_compute. reflexivity.
Defined.

(** ** What a run depends on, and what it prints *)

Lemma msg_error_not_success (e : exn) : msg_error e <> msg_success.
Proof. unfold msg_error, msg_success. simpl. discriminate. Qed.

Lemma msg_not_found_not_success : msg_not_found <> msg_success.
Proof. unfold msg_not_found, msg_success. simpl. discriminate. Qed.

(** The write phase in two worlds that agree on the free space. *)
Lemma write_phase_local (P : Plistlib) (v1 : value) (old : list byte)
    (p : perms) (w1 w2 : world) :
  disk_free w1 = disk_free w2 ->
  fs w1 !! plist_path = fs w2 !! plist_path ->
  fst (write_phase P v1 old p w1) = fst (write_phase P v1 old p w2)
  /\ fs (snd (write_phase P v1 old p w1)) !! plist_path
     = fs (snd (write_phase P v1 old p w2)) !! plist_path
  /\ disk_free (snd (write_phase P v1 old p w1))
     = disk_free (snd (write_phase P v1 old p w2))
  /\ exists line,
       stdout (snd (write_phase P v1 old p w1)) = (stdout w1 ++ [line])%list
       /\ stdout (snd (write_phase P v1 old p w2))
          = (stdout w2 ++ [line])%list
       /\ (fst (write_phase P v1 old p w1) = Return true
           <-> line = msg_success).
Proof.
  intros Hfree Hfs. unfold write_phase. rewrite Hfree.
  assert (Hno : forall e, Return false = Return true
                          <-> msg_error e = msg_success).
  { intros e. split; [discriminate|].
    intros H. now apply msg_error_not_success in H. }
  destruct (writable p).
  - destruct (_ <=? _)%nat; [destruct (snd (dump P v1)) as [e|]|]; simpl;
      rewrite !lookup_insert_eq, Hfree;
      (repeat split; [eexists; repeat split; try reflexivity]);
      try apply Hno.
  - simpl. repeat split; try assumption.
    eexists; repeat split; try reflexivity; apply Hno.
Qed.

(** A run in two worlds that agree on what the path names and on the
    free space: same result, same node at the path and same free space
    afterwards, same lines printed. *)
Lemma run_local (P : Plistlib) (w1 w2 : world) :
  fs w1 !! plist_path = fs w2 !! plist_path ->
  disk_free w1 = disk_free w2 ->
  fst (update_info_plist P w1) = fst (update_info_plist P w2)
  /\ fs (snd (update_info_plist P w1)) !! plist_path
     = fs (snd (update_info_plist P w2)) !! plist_path
  /\ disk_free (snd (update_info_plist P w1))
     = disk_free (snd (update_info_plist P w2))
  /\ exists lines,
       stdout (snd (update_info_plist P w1)) = (stdout w1 ++ lines)%list
       /\ stdout (snd (update_info_plist P w2)) = (stdout w2 ++ lines)%list
       /\ (length lines = 1 \/ length lines = 2)
       /\ (fst (update_info_plist P w1) = Return true
           <-> List.last lines EmptyString = msg_success).
Proof.
  intros Hfs Hfree.
  assert (Hfail : forall line, line <> msg_success ->
    fst (Return false, printed [line] w1) = fst (Return false, printed [line] w2)
    /\ fs (snd (Return false, printed [line] w1)) !! plist_path
       = fs (snd (Return false, printed [line] w2)) !! plist_path
    /\ disk_free (snd (Return false, printed [line] w1))
       = disk_free (snd (Return false, printed [line] w2))
    /\ exists lines,
         stdout (snd (Return false, printed [line] w1))
         = (stdout w1 ++ lines)%list
         /\ stdout (snd (Return false, printed [line] w2))
            = (stdout w2 ++ lines)%list
         /\ (length lines = 1 \/ length lines = 2)
         /\ (fst (Return false, printed [line] w1) = Return true
             <-> List.last lines EmptyString = msg_success)).
  { intros line Hline. simpl. repeat split; try assumption.
    exists [line]. simpl. repeat split; auto.
    - intros H; discriminate H.
    - intros H; contradiction. }
  destruct (fs w1 !! plist_path) as [[content p|]|] eqn:H1; symmetry in Hfs.
  - destruct (readable p) eqn:Hr.
    + destruct (load P content) as [e|v] eqn:Hl.
      * rewrite (run_load_error P w1 content p e H1 Hr Hl),
                (run_load_error P w2 content p e Hfs Hr Hl).
        apply Hfail, msg_error_not_success.
      * destruct (without_manifest v) as [e|v1] eqn:Hm.
        -- rewrite (run_object_error P w1 content p v e H1 Hr Hl Hm),
                   (run_object_error P w2 content p v e Hfs Hr Hl Hm).
           apply Hfail, msg_error_not_success.
        -- rewrite (run_write P w1 content p v v1 H1 Hr Hl Hm),
                   (run_write P w2 content p v v1 Hfs Hr Hl Hm).
           destruct (write_phase_local P v1 content p
                       (printed [note_for v] w1) (printed [note_for v] w2))
             as (Hres & Hnode & Hleft & line & Ho1 & Ho2 & Hok);
             [exact Hfree | simpl; congruence |].
           repeat split; try assumption.
           exists [note_for v; line]. simpl in Ho1, Ho2.
           rewrite <- !app_assoc in Ho1, Ho2.
           repeat split; auto; apply Hok.
    + rewrite (run_unreadable P w1 content p H1 Hr),
              (run_unreadable P w2 content p Hfs Hr).
      apply Hfail, msg_error_not_success.
  - rewrite (run_is_a_directory P w1 H1), (run_is_a_directory P w2 Hfs).
    apply Hfail, msg_error_not_success.
  - rewrite (run_not_found P w1 H1), (run_not_found P w2 Hfs).
    apply Hfail, msg_not_found_not_success.
Qed.

Lemma run_returns (P : Plistlib) (w : world) :
  exists b, fst (update_info_plist P w) = Return b.
Proof.
  destruct (run_cases P w) as [[_ H]|[(e & _ & H)|H]];
    [rewrite H; eauto .. |].
  destruct H as (content & p & v & v1 & _ & _ & _ & _ & H). rewrite H.
  destruct (write_phase_returns P v1 content p (printed [note_for v] w))
    as (b & w' & Hw). rewrite Hw. eauto.
Qed.

(** X5.  The console tells the result.  A run adds one or two lines to
    what was printed before, and it returns [True] exactly when the last
    line it printed is the success line of line 34. *)
Theorem console_tells_result (P : Plistlib) (w : world) :
  exists lines,
    stdout (snd (update_info_plist P w)) = (stdout w ++ lines)%list
    /\ (length lines = 1 \/ length lines = 2)
    /\ (fst (update_info_plist P w) = Return true
        <-> List.last lines EmptyString = msg_success).
Proof.
  destruct (run_local P w w eq_refl eq_refl)
    as (_ & _ & _ & lines & Hout & _ & Hlen & Hok).
  exists lines. auto.
Qed.

(** X6.  A run neither creates nor removes what the path names, nor
    changes what the process may do with it: nothing stays nothing, a
    directory stays a directory, a file stays a file with the same
    permissions (its content may change). *)
Theorem path_kind_preserved (P : Plistlib) (w : world) :
  match fs w !! plist_path with
  | None => fs (snd (update_info_plist P w)) !! plist_path = None
  | Some Directory =>
      fs (snd (update_info_plist P w)) !! plist_path = Some Directory
  | Some (RegFile _ p) =>
      exists content',
        fs (snd (update_info_plist P w)) !! plist_path
        = Some (RegFile content' p)
  end.
Proof.
  destruct (fs w !! plist_path) as [[content p|]|] eqn:Hfs.
  - destruct (run_cases P w) as [[Hno _]|[(e & _ & H)|H]].
    + rewrite Hfs in Hno. discriminate Hno.
    + rewrite H. simpl. eauto.
    + destruct H as (content' & p' & v & v1 & Hfs' & _ & _ & _ & H).
      rewrite Hfs in Hfs'. injection Hfs' as <- <-.
      rewrite H. unfold write_phase.
      destruct (writable p); [|simpl; eauto].
      destruct (_ <=? _)%nat; [destruct (snd (dump P v1))|];
        simpl; rewrite lookup_insert_eq; eauto.
  - now rewrite (run_is_a_directory P w Hfs).
  - now rewrite (run_not_found P w Hfs).
Qed.

(** X7.  A run looks at nothing but what the path names and the room on
    the device: in two worlds that agree on these, whatever else they
    hold and whatever was printed before, the run returns the same
    result, leaves the same node at the path and prints the same
    lines. *)
Theorem reads_only_the_plist (P : Plistlib) (w1 w2 : world) :
  fs w1 !! plist_path = fs w2 !! plist_path ->
  disk_free w1 = disk_free w2 ->
  fst (update_info_plist P w1) = fst (update_info_plist P w2)
  /\ fs (snd (update_info_plist P w1)) !! plist_path
     = fs (snd (update_info_plist P w2)) !! plist_path
  /\ exists lines,
       stdout (snd (update_info_plist P w1)) = (stdout w1 ++ lines)%list
       /\ stdout (snd (update_info_plist P w2)) = (stdout w2 ++ lines)%list.
Proof.
  intros Hfs Hfree.
  destruct (run_local P w1 w2 Hfs Hfree)
    as (Hres & Hnode & _ & lines & Ho1 & Ho2 & _).
  split; [exact Hres|]. split; [exact Hnode|].
  exists lines. auto.
Qed.

Lemma reads_only_the_plist_witness :
  let w1 := Samples.world_of Samples.with_manifest Samples.rw 4096 in
  let w2 := Samples.busy_world in
  fst (update_info_plist RefPlist.plistlib w1)
  = fst (update_info_plist RefPlist.plistlib w2)
  /\ fs (snd (update_info_plist RefPlist.plistlib w1)) !! plist_path
     = fs (snd (update_info_plist RefPlist.plistlib w2)) !! plist_path
  /\ exists lines,
       stdout (snd (update_info_plist RefPlist.plistlib w1))
       = (stdout w1 ++ lines)%list
       /\ stdout (snd (update_info_plist RefPlist.plistlib w2))
          = (stdout w2 ++ lines)%list.
Proof.
  intros w1 w2.
  apply (reads_only_the_plist RefPlist.plistlib w1 w2).
  - vm_compute. reflexivity.
  - reflexivity.
Defined.

(** X8.  A file that holds, for an object without the key, the very bytes
    [plistlib.dump] writes for it is written again with these bytes: the
    run returns [True] and leaves the file system and the free space as
    they were, on a full device too. *)
Theorem canonical_file_is_unchanged (P : Plistlib) (w : world)
    (content : list byte) (p : perms) (v : value) :
  fs w !! plist_path = Some (RegFile content p) ->
  readable p = true ->
  writable p = true ->
  load P content = inr v ->
  py_contains "UIApplicationSceneManifest" v = inr false ->
  dump P v = (content, None) ->
  update_info_plist P w
  = (Return true, printed [msg_already_removed; msg_success] w).
Proof.
  intros Hfs Hr Hw Hl Hc Hd.
  assert (Hm : without_manifest v = inr v).
  { unfold without_manifest, target_key. now rewrite Hc. }
  rewrite (run_write P w content p v v Hfs Hr Hl Hm).
  unfold write_phase, note_for, target_key. rewrite Hw, Hc, Hd. simpl.
  assert (Hfit : length content <= disk_free w + length content) by lia.
  apply Nat.leb_le in Hfit as Hfit'. rewrite Hfit'.
  rewrite store_printed, printed_printed, store_fits by exact Hfit.
  unfold printed. simpl. f_equal. f_equal.
  - now apply insert_id.
  - lia.
Qed.

Lemma canonical_file_is_unchanged_witness :
  let w := Samples.world_of Samples.plain_xml Samples.rw 0 in
  update_info_plist RefPlist.plistlib w
  = (Return true, printed [msg_already_removed; msg_success] w).
Proof.
  intros w.
  apply (canonical_file_is_unchanged RefPlist.plistlib w Samples.plain_xml
           Samples.rw (VDict Samples.plain_doc)).
  - vm_compute. reflexivity.
  - reflexivity.
  - reflexivity.
  - vm_compute. reflexivity.
  - vm_compute. reflexivity.
  - vm_compute. reflexivity.
Defined.

(** X9.  The [__main__] block is the banner and then the function: it
    prints the banner before anything the function prints, the banner
    changes nothing of what the function does to the file system and of
    what it prints, and the exit status is 0 when the function returns
    [True] and 1 when it returns [False]. *)
Theorem main_is_banner_then_update (P : Plistlib) (w : world) :
  exists b lines,
    fst (update_info_plist P w) = Return b
    /\ stdout (snd (update_info_plist P w)) = (stdout w ++ lines)%list
    /\ main P w
       = (Return (if b then 0%Z else 1%Z),
          {| fs := fs (snd (update_info_plist P w));
             disk_free := disk_free (snd (update_info_plist P w));
             stdout := stdout w ++ msg_banner :: lines |}).
Proof.
  destruct (run_returns P w) as (b & Hb).
  destruct (run_local P (printed [msg_banner] w) w eq_refl eq_refl)
    as (Hres & Hnode & Hfree & lines & Ho1 & Ho2 & _).
  exists b, lines. split; [exact Hb|]. split; [exact Ho2|].
  unfold main, bind.
  change (print "🔧 Updating Info.plist for SwiftUI..." w)
    with (Return tt, printed [msg_banner] w).
  cbv iota beta.
  destruct (update_info_plist P (printed [msg_banner] w)) as [r w'] eqn:Hrun.
  simpl in Hres, Hnode, Hfree, Ho1. rewrite Hb in Hres. subst r.
  unfold ret. f_equal. destruct w' as [f' d' o']. simpl in *. f_equal.
  - apply map_eq. intros path.
    destruct (decide (path = plist_path)) as [->|Hne]; [exact Hnode|].
    rewrite (run_frame P w path Hne).
    pose proof (run_frame P (printed [msg_banner] w) path Hne) as Hframe.
    rewrite Hrun in Hframe. exact Hframe.
  - exact Hfree.
  - rewrite Ho1. now rewrite <- app_assoc.
Qed.

(** ** The result of a run *)



